(** * MoleculeLedger backend: the authentication core

    A shallow embedding of [app/core/security.py], [app/services/auth_service.py],
    [app/api/v1/auth_routes.py], [app/models/user_models.py] and the module
    bodies of [app/main.py], followed by the properties of the registration and
    login flows.

    Conventions.
    - Python [int] is [Z]; [str] is [string]; a [dict] keyed by strings is a
      [gmap string _].
    - A Python function that reads or writes module globals or dict objects is
      a computation [M A]: it takes the [world] and gives back an [outcome]
      together with the world it leaves behind (what was written before an
      exception was raised stays written).
    - [passlib] and [jose] are not part of the repository.  Their entry points
      are fields of a [Library] record over which every definition is
      parameterised; a library call either yields a value or throws. *)

From stdpp Require Import base gmap strings list list_numbers pretty.
From Stdlib Require Strings.Byte.

Open Scope Z_scope.

(** ** Exceptions and outcomes *)

Inductive exn : Type :=
| ValueError (msg : string)
| AttributeError (msg : string)
| OverflowError
| HTTPException (status_code : Z) (detail : string) (headers : list (string * string))
| LibraryError (cls : string).

Inductive outcome (A : Type) : Type :=
| Returns (a : A)
| Raises (e : exn).
Arguments Returns {A} a.
Arguments Raises {A} e.

(** What a call into [passlib] or [jose] does: it hands back a value or throws
    an exception of the named class. *)
Inductive libresult (A : Type) : Type :=
| Value (a : A)
| Throws (cls : string).
Arguments Value {A} a.
Arguments Throws {A} cls.

Definition of_lib {A} (r : libresult A) : outcome A :=
  match r with
  | Value a => Returns a
  | Throws cls => Raises (LibraryError cls)
  end.

(** ** [datetime] and [timedelta]

    Both are counted in microseconds.  A [datetime] is the number of
    microseconds since the start of proleptic day 0 (so that a valid value lies
    in days [1 .. MAXORDINAL], i.e. years 1 .. 9999), which is how
    [datetime.__add__] computes. *)

Module Datetime.

Definition timedelta := Z.
Definition datetime := Z.

Definition US_PER_SECOND : Z := 1000000.
Definition US_PER_MINUTE : Z := 60 * US_PER_SECOND.
Definition US_PER_DAY : Z := 86400 * US_PER_SECOND.
Definition MAXORDINAL : Z := 3652059.

(** [timedelta(minutes=m)] *)
Definition minutes (m : Z) : timedelta := m * US_PER_MINUTE.

(** [bool(td)]: a [timedelta] is falsy exactly when it is zero. *)
Definition timedelta_bool (td : timedelta) : bool := negb (td =? 0).

Definition in_range (t : datetime) : bool :=
  (US_PER_DAY <=? t) && (t <? (MAXORDINAL + 1) * US_PER_DAY).

(** [t + td]: [OverflowError] when the sum leaves years 1 .. 9999. *)
Definition add (t : datetime) (td : timedelta) : outcome datetime :=
  if in_range (t + td) then Returns (t + td) else Raises OverflowError.

End Datetime.

(** ** Python values held in a JWT payload, and dict objects *)

Inductive pyvalue : Type :=
| PyNone
| PyBool (b : bool)
| PyInt (z : Z)
| PyStr (s : string)
| PyDatetime (t : Datetime.datetime).

Definition loc := positive.

(** ** [app/models/user_models.py] *)

Module UserCreate.
Record t : Type := new { email : string; password : string }.
End UserCreate.

Module UserLogin.
Record t : Type := new { email : string; password : string }.
End UserLogin.

Module Token.
Record t : Type := new { access_token : string; token_type : string }.
End Token.

Module UserResponse.
Record t : Type := new { id : Z; email : string }.
End UserResponse.

(** The [new_user] dict of [register_user]: always the three keys ["id"],
    ["email"] and ["hashed_password"], never written again after it is built. *)
Module UserRow.
Record t : Type := new { id : Z; email : string; hashed_password : string }.
End UserRow.

(** ** The libraries *)

(** The random bytes a hashing call draws from the operating system. *)
Definition entropy := list Byte.byte.

Record Library : Type := {
  (** [CryptContext.hash(secret)], with the randomness it consumes *)
  pwd_context_hash : entropy -> string -> libresult string;
  (** [CryptContext.verify(secret, hash)] *)
  pwd_context_verify : string -> string -> libresult bool;
  (** [jose.jwt.encode(claims, key, algorithm)]: the result, and the contents
      of the [claims] dict when the call is over (the encoder may rewrite the
      dict it is given). *)
  jwt_encode : gmap string pyvalue -> string -> string ->
               libresult string * gmap string pyvalue
}.

(** ** The world: module globals and dict objects *)

Record world : Type := {
  fake_users_db : gmap string UserRow.t;
  user_id_counter : Z;
  heap : gmap loc (gmap string pyvalue)
}.

Definition M (A : Type) : Type := world -> outcome A * world.

Definition ret {A} (a : A) : M A := fun w => (Returns a, w).
Definition raise {A} (e : exn) : M A := fun w => (Raises e, w).
Definition bind {A B} (c : M A) (k : A -> M B) : M B :=
  fun w =>
    match c w with
    | (Returns a, w') => k a w'
    | (Raises e, w') => (Raises e, w')
    end.
Definition lift {A} (o : outcome A) : M A := fun w => (o, w).

Declare Scope py_scope.
Delimit Scope py_scope with py.
Notation "'let*' x ':=' c 'in' k" := (bind c (fun x => k))
  (at level 10, x name, c at level 100, k at level 200) : py_scope.
Notation "c ';;;' k" := (bind c (fun _ => k))
  (at level 100, k at level 200, right associativity) : py_scope.
Open Scope py_scope.

Definition read_db : M (gmap string UserRow.t) := fun w => (Returns (fake_users_db w), w).
Definition read_counter : M Z := fun w => (Returns (user_id_counter w), w).

(** [fake_users_db[k] = row] *)
Definition db_setitem (k : string) (row : UserRow.t) : M unit :=
  fun w => (Returns tt,
            {| fake_users_db := <[k := row]> (fake_users_db w);
               user_id_counter := user_id_counter w;
               heap := heap w |}).

Definition write_counter (c : Z) : M unit :=
  fun w => (Returns tt,
            {| fake_users_db := fake_users_db w;
               user_id_counter := c;
               heap := heap w |}).

Definition with_heap (h : gmap loc (gmap string pyvalue)) (w : world) : world :=
  {| fake_users_db := fake_users_db w;
     user_id_counter := user_id_counter w;
     heap := h |}.

(** A new dict object with contents [d]; its address is not in use. *)
Definition new_dict (d : gmap string pyvalue) : M loc :=
  fun w => let l := fresh (dom (heap w)) in
           (Returns l, with_heap (<[l := d]> (heap w)) w).

(** [obj.copy()]: a new dict object with the same items.  A reference that
    names no dict has no [copy] attribute. *)
Definition dict_copy (l : loc) : M loc :=
  fun w => match heap w !! l with
           | Some d => new_dict d w
           | None => (Raises (AttributeError "copy"), w)
           end.

(** [obj.update({k: v})], in place. *)
Definition dict_update (l : loc) (k : string) (v : pyvalue) : M unit :=
  fun w => match heap w !! l with
           | Some d => (Returns tt, with_heap (<[l := <[k := v]> d]> (heap w)) w)
           | None => (Raises (AttributeError "update"), w)
           end.

(** ** Environment variables *)

(** [load_dotenv()]: the entries of the [.env] file are added to the process
    environment; a variable that is already set keeps its value. *)
Definition load_dotenv (environ dotenv : gmap string string) : gmap string string :=
  environ ∪ dotenv.

(** [os.getenv(name)] *)
Definition getenv (environ : gmap string string) (name : string) : option string :=
  environ !! name.

(** Truth value of what [os.getenv] gives: [None] and the empty string are falsy. *)
Definition str_truthy (v : option string) : bool :=
  match v with
  | Some s => negb (String.eqb s EmptyString)
  | None => false
  end.

(** ** [app/core/security.py] *)

Module Security.

Definition ALGORITHM : string := "HS256".
Definition ACCESS_TOKEN_EXPIRE_MINUTES : Z := 30.

(** The module body: the statements run once, when the module is imported.
    It yields the value bound to [JWT_SECRET_KEY]. *)
Definition module_body (environ dotenv : gmap string string) : outcome string :=
  let environ := load_dotenv environ dotenv in
  let JWT_SECRET_KEY := getenv environ "JWT_SECRET_KEY" in
  if negb (str_truthy JWT_SECRET_KEY)
  then Raises (ValueError "JWT_SECRET_KEY not found in .env file. Please generate one.")
  else Returns (default EmptyString JWT_SECRET_KEY).

Section Functions.
Variable lib : Library.
Variable JWT_SECRET_KEY : string.

Definition verify_password (plain_password hashed_password : string) : M bool :=
  lift (of_lib (pwd_context_verify lib plain_password hashed_password)).

Definition get_password_hash (rnd : entropy) (password : string) : M string :=
  lift (of_lib (pwd_context_hash lib rnd password)).

(** [jwt.encode(obj, key, algorithm=alg)] on the dict object at [claims]. *)
Definition call_jwt_encode (claims : loc) (key alg : string) : M string :=
  fun w => match heap w !! claims with
           | Some d =>
               let '(r, d') := jwt_encode lib d key alg in
               (of_lib r, with_heap (<[claims := d']> (heap w)) w)
           | None => (Raises (AttributeError "get"), w)
           end.

(** [now] is what [datetime.now(timezone.utc)] reads from the clock. *)
Definition create_access_token
    (data : loc) (expires_delta : option Datetime.timedelta)
    (now : Datetime.datetime) : M string :=
  let* to_encode := dict_copy data in
  let* expire :=
    match expires_delta with
    | Some delta =>
        if Datetime.timedelta_bool delta
        then lift (Datetime.add now delta)
        else lift (Datetime.add now (Datetime.minutes ACCESS_TOKEN_EXPIRE_MINUTES))
    | None => lift (Datetime.add now (Datetime.minutes ACCESS_TOKEN_EXPIRE_MINUTES))
    end in
  dict_update to_encode "exp" (PyDatetime expire) ;;;
  let* encoded_jwt := call_jwt_encode to_encode JWT_SECRET_KEY ALGORITHM in
  ret encoded_jwt.

End Functions.

End Security.

(** ** [app/services/auth_service.py] *)

Module AuthService.

(** The module body: [fake_users_db = {}], [user_id_counter = 1]. *)
Definition module_body : world :=
  {| fake_users_db := ∅; user_id_counter := 1; heap := ∅ |}.

Section Methods.
Variable lib : Library.
Variable JWT_SECRET_KEY : string.

Definition register_user (user_create : UserCreate.t) (rnd : entropy)
  : M (option UserResponse.t) :=
  let* db := read_db in
  if decide (is_Some (db !! UserCreate.email user_create))
  then ret None
  else
    let* hashed_password :=
      Security.get_password_hash lib rnd (UserCreate.password user_create) in
    let* counter := read_counter in
    let new_user := UserRow.new counter (UserCreate.email user_create) hashed_password in
    db_setitem (UserCreate.email user_create) new_user ;;;
    let* counter' := read_counter in
    write_counter (counter' + 1) ;;;
    ret (Some (UserResponse.new (UserRow.id new_user) (UserRow.email new_user))).

(** [user_data] is a three-key dict when it is found, hence truthy:
    [not user_data] holds exactly when the key is absent. *)
Definition authenticate_user (user_login : UserLogin.t) : M (option UserResponse.t) :=
  let* db := read_db in
  match db !! UserLogin.email user_login with
  | None => ret None
  | Some user_data =>
      let* ok := Security.verify_password lib (UserLogin.password user_login)
                   (UserRow.hashed_password user_data) in
      if negb ok
      then ret None
      else ret (Some (UserResponse.new (UserRow.id user_data) (UserRow.email user_data)))
  end.

Definition create_user_access_token (user_email : string) (now : Datetime.datetime)
  : M Token.t :=
  let token_expires := Datetime.minutes 30 in
  let* token_data := new_dict {[ "sub" := PyStr user_email ]} in
  let* access_token :=
    Security.create_access_token lib JWT_SECRET_KEY token_data (Some token_expires) now in
  ret (Token.new access_token "bearer").

End Methods.

End AuthService.

(** ** [app/api/v1/auth_routes.py] *)

Module AuthRoutes.

Definition HTTP_409_CONFLICT : Z := 409.
Definition HTTP_401_UNAUTHORIZED : Z := 401.

Definition email_already_registered : exn :=
  HTTPException HTTP_409_CONFLICT "Email already registered" [].

Definition incorrect_email_or_password : exn :=
  HTTPException HTTP_401_UNAUTHORIZED "Incorrect email or password"
    [("WWW-Authenticate", "Bearer")].

Section Routes.
Variable lib : Library.
Variable JWT_SECRET_KEY : string.

Definition register (user_create : UserCreate.t) (rnd : entropy) : M UserResponse.t :=
  let* new_user := AuthService.register_user lib user_create rnd in
  match new_user with
  | None => raise email_already_registered
  | Some u => ret u
  end.

(** A [UserResponse] object is truthy, so [not user] is [user is None]. *)
Definition login (user_login : UserLogin.t) (now : Datetime.datetime) : M Token.t :=
  let* user := AuthService.authenticate_user lib user_login in
  match user with
  | None => raise incorrect_email_or_password
  | Some u =>
      let* token :=
        AuthService.create_user_access_token lib JWT_SECRET_KEY (UserResponse.email u) now in
      ret token
  end.

End Routes.

End AuthRoutes.

(** ** [app/main.py] *)

Module Main.

Record t : Type := { INFURA_PROJECT_ID : string; INFURA_URL : string; version : string }.

(** The module body up to the construction of the [web3] client. *)
Definition module_body (environ dotenv : gmap string string) : outcome t :=
  let environ := load_dotenv environ dotenv in
  let project_id := getenv environ "INFURA_PROJECT_ID" in
  if negb (str_truthy project_id)
  then Raises (ValueError "INFURA_PROJECT_ID not found in .env file. Please create one.")
  else Returns {| INFURA_PROJECT_ID := default EmptyString project_id;
                  INFURA_URL := "https://sepolia.infura.io/v3/" +:+ default EmptyString project_id;
                  version := "0.1.0" |}.

End Main.

(** ** Importing the modules

    Importing a module first imports, in order, the modules of the repository
    it names in its [import] statements and then runs its own body.  An
    exception raised on the way ends the import, and with it the start of the
    process that asked for the module. *)

Inductive module_name : Type :=
| app_main
| app_core_security
| app_models_user_models
| app_services_auth_service
| app_api_v1_auth_routes.

Definition and_then (o : outcome unit) (k : outcome unit) : outcome unit :=
  match o with
  | Returns _ => k
  | Raises e => Raises e
  end.

Definition forget {A} (o : outcome A) : outcome unit :=
  match o with
  | Returns _ => Returns tt
  | Raises e => Raises e
  end.

Definition import_user_models : outcome unit := Returns tt.

Definition import_security (environ dotenv : gmap string string) : outcome unit :=
  forget (Security.module_body environ dotenv).

Definition import_auth_service (environ dotenv : gmap string string) : outcome unit :=
  and_then import_user_models
    (and_then (import_security environ dotenv) (Returns tt)).

Definition import_auth_routes (environ dotenv : gmap string string) : outcome unit :=
  and_then import_user_models
    (and_then (import_auth_service environ dotenv) (Returns tt)).

Definition import_module (m : module_name) (environ dotenv : gmap string string)
  : outcome unit :=
  match m with
  | app_main => forget (Main.module_body environ dotenv)
  | app_core_security => import_security environ dotenv
  | app_models_user_models => import_user_models
  | app_services_auth_service => import_auth_service environ dotenv
  | app_api_v1_auth_routes => import_auth_routes environ dotenv
  end.

(** ** Serving a sequence of requests *)

Inductive request : Type :=
| POST_register (user_create : UserCreate.t) (rnd : entropy)
| POST_login (user_login : UserLogin.t) (now : Datetime.datetime).

Inductive response : Type :=
| Registered (u : UserResponse.t)
| LoggedIn (t : Token.t)
| Failed (e : exn).

Section Server.
Variable lib : Library.
Variable JWT_SECRET_KEY : string.

Definition handle (r : request) (w : world) : response * world :=
  match r with
  | POST_register uc rnd =>
      match AuthRoutes.register lib uc rnd w with
      | (Returns u, w') => (Registered u, w')
      | (Raises e, w') => (Failed e, w')
      end
  | POST_login ul now =>
      match AuthRoutes.login lib JWT_SECRET_KEY ul now w with
      | (Returns t, w') => (LoggedIn t, w')
      | (Raises e, w') => (Failed e, w')
      end
  end.

Fixpoint serve (rs : list request) (w : world) : list response * world :=
  match rs with
  | [] => ([], w)
  | r :: rs' =>
      let '(resp, w') := handle r w in
      let '(log, w'') := serve rs' w' in
      (resp :: log, w'')
  end.

End Server.

(** The ids handed out, in the order in which they were issued. *)
Fixpoint issued_ids (log : list response) : list Z :=
  match log with
  | [] => []
  | Registered u :: log' => UserResponse.id u :: issued_ids log'
  | _ :: log' => issued_ids log'
  end.

(** A state is reachable when some sequence of register and login requests
    leads to it from the state the module body sets up. *)
Definition reachable (lib : Library) (key : string) (w : world) : Prop :=
  exists rs, (serve lib key rs AuthService.module_body).2 = w.

(** ** A transparent library, for running the code on concrete inputs

    [Plain] keeps the interface of the two libraries and replaces the
    cryptography by string operations: the "digest" of a secret is the secret
    behind a ["$2b$"] prefix, verification refuses (by throwing, as
    [CryptContext.verify] does for a hash it cannot identify) any string
    without the ["$2"] prefix, and the "token" spells out the subject and the
    expiry.  Like [jose], the encoder replaces a [datetime] under ["exp"] by
    whole seconds since 1970 in the dict it is handed. *)

Module Plain.

Definition hash (rnd : entropy) (secret : string) : libresult string :=
  Value ("$2b$" +:+ secret).

Definition identify (h : string) : bool := String.prefix "$2" h.

Definition verify (secret h : string) : libresult bool :=
  if identify h
  then Value (String.eqb h ("$2b$" +:+ secret))
  else Throws "UnknownHashError".

Definition EPOCH_ORDINAL : Z := 719163.

Definition timegm (t : Datetime.datetime) : Z :=
  t `div` Datetime.US_PER_SECOND - EPOCH_ORDINAL * 86400.

Definition show (v : option pyvalue) : string :=
  match v with
  | Some (PyStr s) => s
  | Some (PyInt z) => pretty z
  | Some (PyDatetime t) => pretty (timegm t)
  | Some (PyBool true) => "true"
  | Some (PyBool false) => "false"
  | Some PyNone => "null"
  | None => EmptyString
  end.

Definition encode (claims : gmap string pyvalue) (key alg : string)
  : libresult string * gmap string pyvalue :=
  let claims' :=
    match claims !! "exp" with
    | Some (PyDatetime t) => <["exp" := PyInt (timegm t)]> claims
    | _ => claims
    end in
  (Value (alg +:+ "." +:+ show (claims' !! "sub") +:+ "." +:+ show (claims' !! "exp")),
   claims').

Definition library : Library :=
  {| pwd_context_hash := hash; pwd_context_verify := verify; jwt_encode := encode |}.

End Plain.

(** ** Sample inputs *)

Module Sample.

Definition key : string := "s3cr3t".

(** 2026-01-01T00:00:00Z *)
Definition now : Datetime.datetime := 739617 * Datetime.US_PER_DAY.

Definition alice : UserCreate.t := UserCreate.new "a@x.com" "pw1".
Definition bob : UserCreate.t := UserCreate.new "b@x.com" "pw2".

(** The world after [alice] has registered. *)
Definition one_user : world :=
  (AuthRoutes.register Plain.library alice [] AuthService.module_body).2.

Definition alice_row : UserRow.t := UserRow.new 1 "a@x.com" "$2b$pw1".

(** A payload dict living at address 1. *)
Definition payload : gmap string pyvalue := {[ "sub" := PyStr "a@x.com" ]}.
Definition one_dict : world :=
  {| fake_users_db := ∅; user_id_counter := 1; heap := {[ 1%positive := payload ]} |}.

End Sample.

(** ** Predicates used in the statements *)

(** Two worlds with the same account directory and the same id counter. *)
Definition same_directory (w w' : world) : Prop :=
  fake_users_db w' = fake_users_db w ∧ user_id_counter w' = user_id_counter w.

(** Every record is filed under its own email, carries an id that has already
    been handed out, shares its id with no other record, and the counter is
    one more than the number of records. *)
Definition directory_ok (w : world) : Prop :=
  (∀ e row, fake_users_db w !! e = Some row ->
            UserRow.email row = e ∧ 1 ≤ UserRow.id row < user_id_counter w)
  ∧ (∀ e1 e2 r1 r2, fake_users_db w !! e1 = Some r1 -> fake_users_db w !! e2 = Some r2 ->
                    UserRow.id r1 = UserRow.id r2 -> e1 = e2)
  ∧ user_id_counter w = 1 + Z.of_nat (size (fake_users_db w)).

(** The world [register_user] leaves after a successful insert. *)
Definition inserted (uc : UserCreate.t) (h : string) (w : world) : world :=
  {| fake_users_db :=
       <[UserCreate.email uc :=
           UserRow.new (user_id_counter w) (UserCreate.email uc) h]> (fake_users_db w);
     user_id_counter := user_id_counter w + 1;
     heap := heap w |}.

(** The lifetime [create_access_token] adds to the clock: the caller's
    [expires_delta] when it is truthy, the default window otherwise. *)
Definition lifetime (expires_delta : option Datetime.timedelta) : Datetime.timedelta :=
  match expires_delta with
  | Some delta =>
      if Datetime.timedelta_bool delta then delta
      else Datetime.minutes Security.ACCESS_TOKEN_EXPIRE_MINUTES
  | None => Datetime.minutes Security.ACCESS_TOKEN_EXPIRE_MINUTES
  end.

(** The address [data.copy()] receives in world [w]. *)
Definition copy_address (w : world) : loc := fresh (dom (heap w)).

(** ** [app/main.py]: the start-up hook and the status endpoint

    The [web3] client talks to an Ethereum node.  What the node answers during
    one call of a handler is an input of that call: each field of [Web3] is
    the answer to one question, a value or a failure.  A failure is an
    exception of class [cls] (a subclass of [Exception]) whose text is
    [message].  What a handler prints is returned as the list of its lines. *)

Inductive answer (A : Type) : Type :=
| Answers (a : A)
| Fails (cls message : string).
Arguments Answers {A} a.
Arguments Fails {A} cls message.

Record Web3 : Type := {
  (** [web3.is_connected()] *)
  is_connected : answer bool;
  (** [web3.eth.chain_id] *)
  eth_chain_id : answer Z;
  (** [web3.eth.block_number] *)
  eth_block_number : answer Z
}.

Module Endpoints.

Definition startup_event (web3 : Web3) : outcome unit * list string :=
  let stdout := ["Molecule Ledger Backend starting up..."] in
  match is_connected web3 with
  | Fails cls _ => (Raises (LibraryError cls), stdout)
  | Answers true =>
      match eth_chain_id web3 with
      | Fails cls _ => (Raises (LibraryError cls), stdout)
      | Answers chain_id =>
          (Returns tt,
           stdout ++ ["Connected to Ethereum network: Chain ID " +:+ pretty chain_id
                      +:+ " (Sepolia Testnet)"])
      end
  | Answers false =>
      (Returns tt,
       stdout ++ ["Failed to connect to Ethereum network! Check INFURA_PROJECT_ID or network."])
  end.

Definition read_root : gmap string pyvalue :=
  {[ "message" := PyStr "Welcome to Molecule Ledger API!" ]}.

(** [app] is the loaded module, whose [version] the report quotes. *)
Definition get_status (app : Main.t) (web3 : Web3)
  : outcome (gmap string pyvalue) * list string :=
  match is_connected web3 with
  | Fails cls _ => (Raises (LibraryError cls), [])
  | Answers is_blockchain_connected =>
      let '(current_block, stdout) :=
        if is_blockchain_connected
        then match eth_block_number web3 with
             | Answers n => (PyInt n, [])
             | Fails _ e => (PyStr "N/A", ["Error fetching block number: " +:+ e])
             end
        else (PyNone, []) in
      (Returns (<["api_status" := PyStr "online"]>
                (<["blockchain_connected" := PyBool is_blockchain_connected]>
                 (<["current_block" := current_block]>
                  {[ "version" := PyStr (Main.version app) ]}))),
       stdout)
  end.

End Endpoints.

(** ** Request sequences without their logins *)

Fixpoint registrations (rs : list request) : list request :=
  match rs with
  | [] => []
  | POST_register uc rnd :: rs' => POST_register uc rnd :: registrations rs'
  | POST_login _ _ :: rs' => registrations rs'
  end.

(** The responses of [log] that answer the register requests of [rs]. *)
Fixpoint registration_responses (rs : list request) (log : list response) : list response :=
  match rs, log with
  | POST_register _ _ :: rs', resp :: log' => resp :: registration_responses rs' log'
  | POST_login _ _ :: rs', _ :: log' => registration_responses rs' log'
  | _, _ => []
  end.

(** ** More sample inputs *)

Module Cases.

Definition app : Main.t :=
  {| Main.INFURA_PROJECT_ID := "abc";
     Main.INFURA_URL := "https://sepolia.infura.io/v3/abc";
     Main.version := "0.1.0" |}.

(** A node that is reachable but fails to report its head block. *)
Definition flaky_node : Web3 :=
  {| is_connected := Answers true;
     eth_chain_id := Answers 11155111;
     eth_block_number := Fails "ConnectionError" "connection reset" |}.

(** A node that cannot be reached. *)
Definition unreachable_node : Web3 :=
  {| is_connected := Answers false;
     eth_chain_id := Fails "ConnectionError" "no route";
     eth_block_number := Fails "ConnectionError" "no route" |}.

Definition traffic : list request :=
  [POST_login (UserLogin.new "a@x.com" "pw1") Sample.now;
   POST_register Sample.bob [];
   POST_register Sample.alice [];
   POST_login (UserLogin.new "b@x.com" "pw2") Sample.now].

(** 9999-12-31T23:45:00Z, fifteen minutes before the last representable instant. *)
Definition last_quarter_hour : Datetime.datetime :=
  (Datetime.MAXORDINAL + 1) * Datetime.US_PER_DAY - Datetime.minutes 15.

End Cases.

(** ** A library that refuses some secrets

    [Strict] is [Plain] with one more trait of passlib's bcrypt handler: a
    secret that contains the NUL character is refused, by [hash] and by
    [verify] alike, with [NullPasswordError].  As in [CryptContext.verify],
    the hash is identified before the secret is looked at. *)

Module Strict.

Fixpoint has_nul (secret : string) : bool :=
  match secret with
  | EmptyString => false
  | String c rest => Ascii.eqb c Ascii.zero || has_nul rest
  end.

Definition hash (rnd : entropy) (secret : string) : libresult string :=
  if has_nul secret then Throws "NullPasswordError" else Plain.hash rnd secret.

Definition verify (secret h : string) : libresult bool :=
  if Plain.identify h
  then if has_nul secret
       then Throws "NullPasswordError"
       else Value (String.eqb h ("$2b$" +:+ secret))
  else Throws "UnknownHashError".

Definition library : Library :=
  {| pwd_context_hash := hash; pwd_context_verify := verify; jwt_encode := Plain.encode |}.

End Strict.

(** ** Hashing a secret and verifying against the result

    [verify(offered, hash(secret))] as a caller of the two wrappers writes
    it: the hash is made first, and only if that returns is it verified. *)


(** ** Inputs on which a library call fails *)

Module Faults.

(** A password with a NUL character in it: the three characters p, NUL, w. *)
Definition nul_password : string := "p" +:+ String Ascii.zero "w".

(** The world after [Sample.alice] has registered with the strict library. *)
Definition one_user : world :=
  (AuthRoutes.register Strict.library Sample.alice [] AuthService.module_body).2.

(** An environment in which both required variables are set. *)
Definition full_environ : gmap string string :=
  {[ "JWT_SECRET_KEY" := "s3cr3t"; "INFURA_PROJECT_ID" := "abc" ]}.

(** A node that is connected but fails to report its chain id. *)
Definition no_chain_id : Web3 :=
  {| is_connected := Answers true;
     eth_chain_id := Fails "ConnectionError" "connection reset";
     eth_block_number := Answers 1 |}.

End Faults.

(** * Properties *)

(** ** The state monad *)

Ltac unfold_M :=
  unfold bind, ret, raise, lift, read_db, read_counter, db_setitem, write_counter in *;
  simpl in *.

Lemma world_eta (w : world) :
  {| fake_users_db := fake_users_db w; user_id_counter := user_id_counter w; heap := heap w |} = w.
Proof. by destruct w. Qed.

Lemma with_heap_same_directory h w : same_directory w (with_heap h w).
Proof. by split. Qed.

Lemma same_directory_refl w : same_directory w w.
Proof. by split. Qed.

Lemma same_directory_trans w1 w2 w3 :
  same_directory w1 w2 -> same_directory w2 w3 -> same_directory w1 w3.
Proof. intros [H1 H2] [H3 H4]. split; congruence. Qed.

(** ** The hashing wrappers *)

Lemma verify_password_unfold lib plain hashed w :
  Security.verify_password lib plain hashed w =
  (of_lib (pwd_context_verify lib plain hashed), w).
Proof. reflexivity. Qed.


(** ** [register_user] and the register route, case by case *)

Lemma register_user_unfold lib uc rnd w :
  AuthService.register_user lib uc rnd w =
  match fake_users_db w !! UserCreate.email uc with
  | Some _ => (Returns None, w)
  | None =>
      match pwd_context_hash lib rnd (UserCreate.password uc) with
      | Throws cls => (Raises (LibraryError cls), w)
      | Value h =>
          (Returns (Some (UserResponse.new (user_id_counter w) (UserCreate.email uc))),
           inserted uc h w)
      end
  end.
Proof.
  unfold AuthService.register_user. unfold_M.
  destruct (fake_users_db w !! UserCreate.email uc) as [row|] eqn:Hdb.
  - rewrite decide_True by eauto. done.
  - rewrite decide_False by (intros [? ?]; discriminate).
    unfold Security.get_password_hash. unfold_M.
    by destruct (pwd_context_hash lib rnd (UserCreate.password uc)).
Qed.

Lemma register_unfold lib uc rnd w :
  AuthRoutes.register lib uc rnd w =
  match fake_users_db w !! UserCreate.email uc with
  | Some _ => (Raises AuthRoutes.email_already_registered, w)
  | None =>
      match pwd_context_hash lib rnd (UserCreate.password uc) with
      | Throws cls => (Raises (LibraryError cls), w)
      | Value h =>
          (Returns (UserResponse.new (user_id_counter w) (UserCreate.email uc)),
           inserted uc h w)
      end
  end.
Proof.
  unfold AuthRoutes.register, bind. rewrite register_user_unfold.
  destruct (fake_users_db w !! UserCreate.email uc); [done|].
  by destruct (pwd_context_hash lib rnd (UserCreate.password uc)).
Qed.

(** ** [authenticate_user], case by case *)

Lemma authenticate_user_unfold lib ul w :
  AuthService.authenticate_user lib ul w =
  match fake_users_db w !! UserLogin.email ul with
  | None => (Returns None, w)
  | Some row =>
      match pwd_context_verify lib (UserLogin.password ul) (UserRow.hashed_password row) with
      | Throws cls => (Raises (LibraryError cls), w)
      | Value false => (Returns None, w)
      | Value true => (Returns (Some (UserResponse.new (UserRow.id row) (UserRow.email row))), w)
      end
  end.
Proof.
  unfold AuthService.authenticate_user. unfold_M.
  destruct (fake_users_db w !! UserLogin.email ul) as [row|]; [|done].
  unfold Security.verify_password. unfold_M.
  by destruct (pwd_context_verify lib _ _) as [[]|].
Qed.

(** ** [create_access_token], case by case *)

Lemma copy_address_fresh w : heap w !! copy_address w = None.
Proof.
  unfold copy_address. apply (not_elem_of_dom (heap w)).
  apply (is_fresh (dom (heap w))).
Qed.

Lemma copy_address_ne w l : is_Some (heap w !! l) -> l ≠ copy_address w.
Proof. intros [d Hd] ->. rewrite copy_address_fresh in Hd. discriminate. Qed.

Lemma create_access_token_unfold lib key data expires_delta now w :
  Security.create_access_token lib key data expires_delta now w =
  match heap w !! data with
  | None => (Raises (AttributeError "copy"), w)
  | Some d =>
      match Datetime.add now (lifetime expires_delta) with
      | Raises e => (Raises e, with_heap (<[copy_address w := d]> (heap w)) w)
      | Returns expire =>
          let r := jwt_encode lib (<["exp" := PyDatetime expire]> d) key Security.ALGORITHM in
          (of_lib r.1, with_heap (<[copy_address w := r.2]> (heap w)) w)
      end
  end.
Proof.
  unfold Security.create_access_token, dict_copy, new_dict, bind, lift, ret, dict_update,
    Security.call_jwt_encode, lifetime.
  fold (copy_address w).
  destruct (heap w !! data) as [d|] eqn:Hd; [|done].
  destruct expires_delta as [delta|]; [destruct (Datetime.timedelta_bool delta)|];
    (match goal with |- context [Datetime.add now ?x] =>
       destruct (Datetime.add now x) as [expire|e]; [|done] end;
     simpl; rewrite lookup_insert_eq; simpl; rewrite lookup_insert_eq;
     destruct (jwt_encode lib (<["exp" := PyDatetime expire]> d) key Security.ALGORITHM)
       as [r d'] eqn:Henc; simpl;
     unfold with_heap; simpl; rewrite !insert_insert_eq; by destruct r).
Qed.

Lemma create_access_token_same_directory lib key data expires_delta now w :
  same_directory w (Security.create_access_token lib key data expires_delta now w).2.
Proof.
  rewrite create_access_token_unfold.
  destruct (heap w !! data); [|apply same_directory_refl].
  destruct (Datetime.add now (lifetime expires_delta)); apply with_heap_same_directory.
Qed.

(** Every dict object that exists before the call is the same after it. *)
Lemma create_access_token_old_objects lib key data expires_delta now w l :
  is_Some (heap w !! l) ->
  heap (Security.create_access_token lib key data expires_delta now w).2 !! l = heap w !! l.
Proof.
  intros Hl. apply copy_address_ne in Hl.
  rewrite create_access_token_unfold.
  destruct (heap w !! data); [|done].
  destruct (Datetime.add now (lifetime expires_delta)); simpl;
    by rewrite lookup_insert_ne.
Qed.

(** ** [create_user_access_token] and the login route, case by case *)

Lemma lifetime_thirty_minutes :
  lifetime (Some (Datetime.minutes 30)) = Datetime.minutes 30.
Proof. reflexivity. Qed.

Lemma create_user_access_token_unfold lib key user_email now w :
  AuthService.create_user_access_token lib key user_email now w =
  let token_data : gmap string pyvalue := {[ "sub" := PyStr user_email ]} in
  let w1 := with_heap (<[copy_address w := token_data]> (heap w)) w in
  match Datetime.add now (Datetime.minutes 30) with
  | Raises e => (Raises e, with_heap (<[copy_address w1 := token_data]> (heap w1)) w1)
  | Returns expire =>
      let r := jwt_encode lib (<["exp" := PyDatetime expire]> token_data) key
                 Security.ALGORITHM in
      (match r.1 with
       | Value access_token => Returns (Token.new access_token "bearer")
       | Throws cls => Raises (LibraryError cls)
       end,
       with_heap (<[copy_address w1 := r.2]> (heap w1)) w1)
  end.
Proof.
  unfold AuthService.create_user_access_token, bind at 1, new_dict.
  fold (copy_address w). unfold bind.
  rewrite create_access_token_unfold, lifetime_thirty_minutes. simpl.
  rewrite lookup_insert_eq.
  destruct (Datetime.add now (Datetime.minutes 30)) as [expire|e]; [|done].
  simpl. by destruct (jwt_encode lib _ key Security.ALGORITHM) as [[t|cls] d'].
Qed.

Lemma create_user_access_token_same_directory lib key user_email now w :
  same_directory w (AuthService.create_user_access_token lib key user_email now w).2.
Proof.
  rewrite create_user_access_token_unfold. simpl.
  destruct (Datetime.add now (Datetime.minutes 30)); by split.
Qed.

Lemma create_user_access_token_raises lib key user_email now w e :
  (AuthService.create_user_access_token lib key user_email now w).1 = Raises e ->
  e = OverflowError ∨ ∃ cls, e = LibraryError cls.
Proof.
  rewrite create_user_access_token_unfold. simpl.
  unfold Datetime.add. destruct (Datetime.in_range _); simpl.
  - destruct (jwt_encode lib _ key Security.ALGORITHM) as [[t|cls] d']; simpl;
      intros [= <-]; eauto.
  - intros [= <-]. by left.
Qed.

Lemma login_unfold lib key ul now w :
  AuthRoutes.login lib key ul now w =
  match fake_users_db w !! UserLogin.email ul with
  | None => (Raises AuthRoutes.incorrect_email_or_password, w)
  | Some row =>
      match pwd_context_verify lib (UserLogin.password ul) (UserRow.hashed_password row) with
      | Throws cls => (Raises (LibraryError cls), w)
      | Value false => (Raises AuthRoutes.incorrect_email_or_password, w)
      | Value true =>
          AuthService.create_user_access_token lib key (UserRow.email row) now w
      end
  end.
Proof.
  unfold AuthRoutes.login, bind at 1. rewrite authenticate_user_unfold.
  destruct (fake_users_db w !! UserLogin.email ul) as [row|]; [|done].
  destruct (pwd_context_verify lib _ _) as [[]|]; try done.
  unfold bind, ret. simpl.
  by destruct (AuthService.create_user_access_token lib key (UserRow.email row) now w)
    as [[t|e] w'].
Qed.

Lemma login_same_directory lib key ul now w :
  same_directory w (AuthRoutes.login lib key ul now w).2.
Proof.
  rewrite login_unfold.
  destruct (fake_users_db w !! UserLogin.email ul) as [row|]; [|apply same_directory_refl].
  destruct (pwd_context_verify lib _ _) as [[]|]; try apply same_directory_refl.
  apply create_user_access_token_same_directory.
Qed.

(** ** Login is read-only on the directory, and its failures look alike *)

(** C10. [authenticate_user] is read-only: whatever the directory holds,
    whatever the request, and whether the call returns a user, returns [None]
    or lets a library exception through, the world after the call (account
    directory, id counter and dict objects) is the world before it. *)
Theorem authenticate_user_read_only lib (user_login : UserLogin.t) (w : world) :
  (AuthService.authenticate_user lib user_login w).2 = w
  ∧ same_directory w (AuthService.authenticate_user lib user_login w).2.
Proof.
  assert (H : (AuthService.authenticate_user lib user_login w).2 = w).
  { rewrite authenticate_user_unfold.
    destruct (fake_users_db w !! UserLogin.email user_login) as [row|]; [|done].
    by destruct (pwd_context_verify lib _ _) as [[]|]. }
  split; [done|]. rewrite H. apply same_directory_refl.
Qed.

(** C2, as stated, fails: the two failures can be told apart when the
    library raises on the wrong password.  With a context that refuses a NUL
    character, as passlib's bcrypt handler does, and alice registered, the
    same wrong password gives the library's exception for her email and the
    401 error for an email that was never registered. *)
Lemma login_distinguishes_when_verify_raises :
  reachable Strict.library Sample.key Faults.one_user
  ∧ is_Some (fake_users_db Faults.one_user !! "a@x.com")
  ∧ fake_users_db Faults.one_user !! "z@x.com" = None
  ∧ Faults.nul_password ≠ UserCreate.password Sample.alice
  ∧ AuthRoutes.login Strict.library Sample.key
      (UserLogin.new "a@x.com" Faults.nul_password) Sample.now Faults.one_user
    = (Raises (LibraryError "NullPasswordError"), Faults.one_user)
  ∧ AuthRoutes.login Strict.library Sample.key
      (UserLogin.new "z@x.com" Faults.nul_password) Sample.now Faults.one_user
    = (Raises AuthRoutes.incorrect_email_or_password, Faults.one_user)
  ∧ LibraryError "NullPasswordError" ≠ AuthRoutes.incorrect_email_or_password.
Proof.
  split; [exists [POST_register Sample.alice []]; vm_compute; reflexivity|].
  split; [exists Sample.alice_row; vm_compute; reflexivity|].
  split; [vm_compute; reflexivity|].
  split; [vm_compute; intros [=]|].
  split; [vm_compute; reflexivity|].
  split; [vm_compute; reflexivity|].
  intros [=].
Qed.

(** C2, amended.  In any directory state, a login with an email that is not
    registered and a login with a registered email whose password
    [pwd_context.verify] rejects by returning [False] end the same way: both
    raise the one [HTTPException] with status 401, detail "Incorrect email or
    password" and the same headers, and both leave the world untouched, so
    the result does not tell the two cases apart. *)
Theorem login_failures_same_error lib key (w : world)
    (unknown known : UserLogin.t) (now1 now2 : Datetime.datetime) (row : UserRow.t) :
  fake_users_db w !! UserLogin.email unknown = None ->
  fake_users_db w !! UserLogin.email known = Some row ->
  pwd_context_verify lib (UserLogin.password known) (UserRow.hashed_password row)
    = Value false ->
  AuthRoutes.login lib key unknown now1 w
    = (Raises AuthRoutes.incorrect_email_or_password, w)
  ∧ AuthRoutes.login lib key known now2 w
    = (Raises AuthRoutes.incorrect_email_or_password, w)
  ∧ AuthService.authenticate_user lib unknown w = (Returns None, w)
  ∧ AuthService.authenticate_user lib known w = (Returns None, w).
Proof.
  intros Hunknown Hknown Hwrong.
  rewrite !login_unfold, !authenticate_user_unfold, Hunknown, Hknown, Hwrong.
  done.
Qed.

Lemma login_failures_same_error_witness :
  AuthRoutes.login Plain.library Sample.key (UserLogin.new "z@x.com" "pw1")
    Sample.now Sample.one_user
    = (Raises AuthRoutes.incorrect_email_or_password, Sample.one_user)
  ∧ AuthRoutes.login Plain.library Sample.key (UserLogin.new "a@x.com" "guess")
      Sample.now Sample.one_user
    = (Raises AuthRoutes.incorrect_email_or_password, Sample.one_user)
  ∧ AuthService.authenticate_user Plain.library (UserLogin.new "z@x.com" "pw1")
      Sample.one_user = (Returns None, Sample.one_user)
  ∧ AuthService.authenticate_user Plain.library (UserLogin.new "a@x.com" "guess")
      Sample.one_user = (Returns None, Sample.one_user).
Proof.
  apply (login_failures_same_error Plain.library Sample.key Sample.one_user
           (UserLogin.new "z@x.com" "pw1") (UserLogin.new "a@x.com" "guess")
           Sample.now Sample.now Sample.alice_row).
  - vm_compute. reflexivity.
  - vm_compute. reflexivity.
  - vm_compute. reflexivity.
Defined.

(** ** Registration *)

(** C3. Whatever the directory holds and whatever the email, the register
    route fails with the duplicate-account error (HTTP 409 "Email already
    registered") exactly when the email is already a key of the directory;
    whenever it fails, for this or any other reason, the world is left as it
    was (directory and id counter included); and when it succeeds the value
    returned is the [UserResponse] made of the id taken from the counter and
    of the email, a record with no room for the password hash, while the hash
    goes into the directory only. *)
Theorem register_duplicate_account lib (user_create : UserCreate.t) (rnd : entropy)
    (w : world) :
  let r := AuthRoutes.register lib user_create rnd w in
  (r.1 = Raises AuthRoutes.email_already_registered
     ↔ is_Some (fake_users_db w !! UserCreate.email user_create))
  ∧ (∀ e, r.1 = Raises e -> r.2 = w)
  ∧ (∀ u, r.1 = Returns u ->
      u = UserResponse.new (user_id_counter w) (UserCreate.email user_create)
      ∧ ∃ h, pwd_context_hash lib rnd (UserCreate.password user_create) = Value h
             ∧ r.2 = inserted user_create h w).
Proof.
  simpl. rewrite register_unfold.
  destruct (fake_users_db w !! UserCreate.email user_create) as [row|] eqn:Hdb.
  - simpl. split; [by eauto|]. split; [done|]. intros u [=].
  - destruct (pwd_context_hash lib rnd (UserCreate.password user_create)) as [h|cls];
      simpl.
    + split; [split; [done|by intros [? [=]]]|].
      split; [done|]. intros u [= <-]. eauto.
    + split; [split; [done|by intros [? [=]]]|].
      split; [done|]. intros u [=].
Qed.

(** The service method underneath: [None] for a duplicate, nothing written. *)
Lemma register_user_duplicate lib uc rnd w :
  is_Some (fake_users_db w !! UserCreate.email uc) ->
  AuthService.register_user lib uc rnd w = (Returns None, w).
Proof. intros [row Hrow]. by rewrite register_user_unfold, Hrow. Qed.

(** The response of a successful registration does not depend on the
    password or on the salt: only the directory sees the hash. *)
Lemma register_response_independent_of_secret lib email pw1 pw2 rnd1 rnd2 w u1 u2 :
  (AuthRoutes.register lib (UserCreate.new email pw1) rnd1 w).1 = Returns u1 ->
  (AuthRoutes.register lib (UserCreate.new email pw2) rnd2 w).1 = Returns u2 ->
  u1 = u2.
Proof.
  rewrite !register_unfold. simpl.
  destruct (fake_users_db w !! email); [by intros [=]|].
  destruct (pwd_context_hash lib rnd1 pw1); [|by intros [=]].
  destruct (pwd_context_hash lib rnd2 pw2); [|by intros _ [=]].
  simpl. by intros [= <-] [= <-].
Qed.

(** ** The directory invariant *)

Lemma directory_ok_same w w' : same_directory w w' -> directory_ok w -> directory_ok w'.
Proof. intros [Hdb Hc]. unfold directory_ok. by rewrite Hdb, Hc. Qed.

Lemma directory_ok_initial : directory_ok AuthService.module_body.
Proof.
  unfold directory_ok, AuthService.module_body. simpl.
  split; [|split].
  - intros e row H. by rewrite lookup_empty in H.
  - intros e1 e2 r1 r2 H. by rewrite lookup_empty in H.
  - by rewrite map_size_empty.
Qed.

Lemma inserted_ok uc h w :
  fake_users_db w !! UserCreate.email uc = None ->
  directory_ok w -> directory_ok (inserted uc h w).
Proof.
  intros Hfree (Hkey & Hinj & Hsize).
  unfold directory_ok, inserted. simpl.
  split; [|split].
  - intros e row. rewrite lookup_insert. case_decide as He.
    + intros [= <-]. simpl. split; [done|]. lia.
    + intros Hrow. destruct (Hkey e row Hrow) as [? ?]. split; [done|]. lia.
  - intros e1 e2 r1 r2. rewrite !lookup_insert.
    case_decide as He1; case_decide as He2.
    + congruence.
    + intros [= <-] H2 Hid. simpl in Hid.
      destruct (Hkey e2 r2 H2) as [_ ?]. lia.
    + intros H1 [= <-] Hid. simpl in Hid.
      destruct (Hkey e1 r1 H1) as [_ ?]. lia.
    + apply Hinj.
  - rewrite map_size_insert_None by done. lia.
Qed.

(** A request either is a registration that inserts a record, or leaves the
    directory and the counter alone and hands out no id. *)
Lemma handle_cases lib key r w :
  (∃ uc rnd h,
      r = POST_register uc rnd
      ∧ fake_users_db w !! UserCreate.email uc = None
      ∧ handle lib key r w =
          (Registered (UserResponse.new (user_id_counter w) (UserCreate.email uc)),
           inserted uc h w))
  ∨ (same_directory w (handle lib key r w).2
     ∧ ∀ u, (handle lib key r w).1 ≠ Registered u).
Proof.
  destruct r as [uc rnd|ul now]; simpl.
  - rewrite register_unfold.
    destruct (fake_users_db w !! UserCreate.email uc) as [row|] eqn:Hdb.
    + right. split; [apply same_directory_refl|done].
    + destruct (pwd_context_hash lib rnd (UserCreate.password uc)) as [h|cls].
      * left. by exists uc, rnd, h.
      * right. split; [apply same_directory_refl|done].
  - right. pose proof (login_same_directory lib key ul now w) as Hsame.
    destruct (AuthRoutes.login lib key ul now w) as [[t|e] w']; by split.
Qed.

Lemma serve_cons lib key r rs w :
  serve lib key (r :: rs) w =
  ((handle lib key r w).1 :: (serve lib key rs (handle lib key r w).2).1,
   (serve lib key rs (handle lib key r w).2).2).
Proof.
  cbn [serve]. destruct (handle lib key r w) as [resp w'].
  cbn [fst snd]. by destruct (serve lib key rs w') as [log w''].
Qed.

Lemma serve_invariant lib key rs : ∀ w,
  directory_ok w ->
  directory_ok (serve lib key rs w).2
  ∧ issued_ids (serve lib key rs w).1
      = seqZ (user_id_counter w) (user_id_counter (serve lib key rs w).2 - user_id_counter w)
  ∧ user_id_counter w ≤ user_id_counter (serve lib key rs w).2
  ∧ (∀ e row, fake_users_db w !! e = Some row ->
              fake_users_db (serve lib key rs w).2 !! e = Some row)
  ∧ (∀ u, Registered u ∈ (serve lib key rs w).1 ->
          ∃ row, fake_users_db (serve lib key rs w).2 !! UserResponse.email u = Some row
                 ∧ UserRow.id row = UserResponse.id u).
Proof.
  induction rs as [|r rs IH]; intros w Hok.
  - simpl. split; [done|]. split; [by rewrite seqZ_nil by lia|].
    split; [lia|]. split; [done|]. intros u Hu. by apply elem_of_nil in Hu.
  - rewrite serve_cons. simpl.
    destruct (handle_cases lib key r w) as [(uc & rnd & h & -> & Hfree & Hh)|[Hsame Hnot]].
    + rewrite Hh. simpl.
      destruct (IH (inserted uc h w) (inserted_ok uc h w Hfree Hok))
        as (Hok' & Hids & Hle & Hkeep & Hreg).
      simpl in Hids, Hle.
      split; [done|]. split; [|split; [lia|split]].
      * rewrite Hids.
        rewrite (seqZ_cons (user_id_counter w)) by lia.
        f_equal. f_equal; lia.
      * intros e row Hrow. apply Hkeep. simpl.
        rewrite lookup_insert_ne; [done|]. intros <-. congruence.
      * intros u Hu. apply elem_of_cons in Hu as [[= ->]|Hu]; [|by apply Hreg].
        simpl. exists (UserRow.new (user_id_counter w) (UserCreate.email uc) h).
        split; [|done]. apply Hkeep. simpl. by rewrite lookup_insert_eq.
    + destruct Hsame as [Hdb Hc].
      destruct (IH (handle lib key r w).2) as (Hok' & Hids & Hle & Hkeep & Hreg).
      { apply (directory_ok_same w); [by split|done]. }
      rewrite Hc in Hids, Hle. rewrite Hdb in Hkeep.
      split; [done|]. split; [|split; [done|split; [done|]]].
      * destruct (handle lib key r w).1 as [u| |] eqn:Hresp; [by destruct (Hnot u)|done|done].
      * intros u Hu. apply elem_of_cons in Hu as [Hu|Hu]; [|by apply Hreg].
        by destruct (Hnot u).
Qed.

Lemma reachable_directory_ok lib key w : reachable lib key w -> directory_ok w.
Proof.
  intros [rs <-]. apply serve_invariant, directory_ok_initial.
Qed.

(** C4. After any sequence of register and login requests, starting from the
    state the module sets up: every record of the directory is filed under its
    own email, so each registered email has exactly one record; no two
    records share an id; the ids handed out are 1, 2, 3, ... in the order of
    issue, one per record, hence unique and strictly increasing; every id
    handed out is the id of the record kept for that email; and the counter
    is one more than the number of ids handed out, so that requests that
    fail (duplicates among them) and logins consume none. *)
Theorem directory_invariant lib key (rs : list request) :
  let log := (serve lib key rs AuthService.module_body).1 in
  let w := (serve lib key rs AuthService.module_body).2 in
  (∀ e row, fake_users_db w !! e = Some row -> UserRow.email row = e)
  ∧ (∀ e1 e2 r1 r2, fake_users_db w !! e1 = Some r1 -> fake_users_db w !! e2 = Some r2 ->
                    UserRow.id r1 = UserRow.id r2 -> e1 = e2)
  ∧ issued_ids log = seqZ 1 (Z.of_nat (size (fake_users_db w)))
  ∧ (∀ i j a b, issued_ids log !! i = Some a -> issued_ids log !! j = Some b ->
                (i < j)%nat -> a < b)
  ∧ (∀ u, Registered u ∈ log ->
          ∃ row, fake_users_db w !! UserResponse.email u = Some row
                 ∧ UserRow.id row = UserResponse.id u)
  ∧ user_id_counter w = 1 + Z.of_nat (length (issued_ids log)).
Proof.
  simpl.
  destruct (serve_invariant lib key rs AuthService.module_body directory_ok_initial)
    as ((Hkey & Hinj & Hsize) & Hids & Hle & _ & Hreg).
  simpl in Hids, Hle.
  assert (Hseq : issued_ids (serve lib key rs AuthService.module_body).1
                 = seqZ 1 (Z.of_nat (size (fake_users_db
                     (serve lib key rs AuthService.module_body).2)))).
  { rewrite Hids. f_equal. lia. }
  split; [intros e row Hrow; by destruct (Hkey e row Hrow)|].
  split; [done|]. split; [done|]. split; [|split; [done|]].
  - intros i j a b. rewrite Hseq, !lookup_seqZ. lia.
  - rewrite Hseq, length_seqZ. lia.
Qed.

(** ** Token creation *)

Lemma lifetime_default : lifetime None = Datetime.minutes 30.
Proof. reflexivity. Qed.

Lemma lifetime_supplied delta : delta ≠ 0 -> lifetime (Some delta) = delta.
Proof.
  intros Hne. unfold lifetime, Datetime.timedelta_bool.
  by rewrite (proj2 (Z.eqb_neq delta 0) Hne).
Qed.

Lemma lifetime_zero : lifetime (Some 0) = Datetime.minutes 30.
Proof. reflexivity. Qed.

(** With a lifetime that is not zero, or with none, the payload handed to the
    encoder is the caller's payload with ["exp"] set to the clock plus that
    lifetime, respectively plus thirty minutes. *)
Lemma create_access_token_payload lib key data expires_delta now w d :
  heap w !! data = Some d ->
  Datetime.in_range (now + lifetime expires_delta) = true ->
  (Security.create_access_token lib key data expires_delta now w).1
  = of_lib (jwt_encode lib (<["exp" := PyDatetime (now + lifetime expires_delta)]> d) key
              Security.ALGORITHM).1.
Proof.
  intros Hd Hrange. rewrite create_access_token_unfold, Hd.
  unfold Datetime.add. by rewrite Hrange.
Qed.

(** C9. [create_access_token] leaves the caller's dictionary as it found it:
    whatever the payload, the lifetime, the clock and the encoder (which may
    rewrite the dict it is handed), the object at [data] has the same items
    after the call as before, and so has every other dict that existed; the
    ["exp"] item is written to the copy, which lives at an address of its own
    and is the dict the encoder receives. *)
Theorem create_access_token_frame lib key (data : loc)
    (expires_delta : option Datetime.timedelta) (now : Datetime.datetime) (w : world) :
  let r := Security.create_access_token lib key data expires_delta now w in
  heap r.2 !! data = heap w !! data
  ∧ (∀ l, is_Some (heap w !! l) -> heap r.2 !! l = heap w !! l)
  ∧ (∀ d expire,
       heap w !! data = Some d ->
       Datetime.add now (lifetime expires_delta) = Returns expire ->
       data ≠ copy_address w
       ∧ r.1 = of_lib (jwt_encode lib (<["exp" := PyDatetime expire]> d) key
                         Security.ALGORITHM).1
       ∧ heap r.2 !! copy_address w
         = Some (jwt_encode lib (<["exp" := PyDatetime expire]> d) key
                   Security.ALGORITHM).2)
  ∧ same_directory w r.2.
Proof.
  simpl. split; [|split; [|split]].
  - destruct (heap w !! data) as [d|] eqn:Hd.
    + rewrite <- Hd. apply create_access_token_old_objects. by rewrite Hd.
    + rewrite create_access_token_unfold, Hd. done.
  - intros l. apply create_access_token_old_objects.
  - intros d expire Hd Hadd.
    split; [apply copy_address_ne; by rewrite Hd|].
    rewrite create_access_token_unfold, Hd, Hadd. simpl.
    by rewrite lookup_insert_eq.
  - apply create_access_token_same_directory.
Qed.

(** C5, where the code departs from it.  A lifetime of zero is a [timedelta]
    that tests false, so [create_access_token] treats it as if no lifetime had
    been supplied: for every payload, clock and world the call with
    [timedelta(0)] is the call with [None], and on the sample payload at
    2026-01-01T00:00:00Z (1767225600 seconds after 1970) the token carries the
    expiry 1767227400, thirty minutes later, not the clock plus zero. *)
Theorem zero_lifetime_takes_default lib key (data : loc) (now : Datetime.datetime)
    (w : world) :
  Security.create_access_token lib key data (Some 0) now w
  = Security.create_access_token lib key data None now w
  ∧ (Security.create_access_token Plain.library Sample.key 1%positive (Some 0)
       Sample.now Sample.one_dict).1 = Returns "HS256.a@x.com.1767227400"
  ∧ Plain.timegm (Sample.now + 0) = 1767225600
  ∧ Plain.timegm (Sample.now + Datetime.minutes 30) = 1767227400.
Proof.
  split; [by rewrite !create_access_token_unfold|].
  split; [by vm_compute|]. split; by vm_compute.
Qed.

(** ** Password verification *)

(** C6, as stated, fails: with a context that, like [CryptContext.verify],
    throws on a hash it cannot identify, [verify_password] does not return a
    boolean for the malformed hash "not-a-hash"; the exception comes out. *)
Lemma verify_password_raises_on_unidentified_hash :
  Security.verify_password Plain.library "secret" "not-a-hash" AuthService.module_body
  = (Raises (LibraryError "UnknownHashError"), AuthService.module_body)
  ∧ (∀ b, (Security.verify_password Plain.library "secret" "not-a-hash"
             AuthService.module_body).1 ≠ Returns b).
Proof. split; [by vm_compute|]. intros b. by vm_compute. Qed.

(** C6, amended.  [verify_password] adds nothing to [pwd_context.verify] and
    takes nothing away: it changes no state, it returns the boolean the
    library returns, and when the library throws the exception propagates
    unchanged through [verify_password], [authenticate_user] and the login
    route, none of which has a handler. *)
Theorem verify_password_propagates lib key (plain_password hashed_password : string)
    (w : world) :
  Security.verify_password lib plain_password hashed_password w
    = (of_lib (pwd_context_verify lib plain_password hashed_password), w)
  ∧ (∀ b, (Security.verify_password lib plain_password hashed_password w).1 = Returns b
          ↔ pwd_context_verify lib plain_password hashed_password = Value b)
  ∧ (∀ cls, pwd_context_verify lib plain_password hashed_password = Throws cls ->
       (Security.verify_password lib plain_password hashed_password w).1
         = Raises (LibraryError cls)
       ∧ ∀ email id now,
           fake_users_db w !! email = Some (UserRow.new id email hashed_password) ->
           AuthService.authenticate_user lib (UserLogin.new email plain_password) w
             = (Raises (LibraryError cls), w)
           ∧ AuthRoutes.login lib key (UserLogin.new email plain_password) now w
             = (Raises (LibraryError cls), w)).
Proof.
  rewrite verify_password_unfold. split; [done|]. split.
  - intros b. simpl.
    destruct (pwd_context_verify lib plain_password hashed_password); simpl;
      split; congruence.
  - intros cls Hthrows. simpl. rewrite Hthrows. split; [done|].
    intros email id now Hrow.
    rewrite login_unfold, authenticate_user_unfold. simpl.
    by rewrite Hrow; simpl; rewrite Hthrows.
Qed.

(** ** Hashing and verifying through the wrappers *)



(** ** Start-up and request failures *)

(** C8, as stated, fails, in both halves.  The signing secret is not the
    only failure that stops start-up: with it set and [INFURA_PROJECT_ID]
    missing, importing [app.main] raises [ValueError] (and with
    [INFURA_PROJECT_ID] set and the secret missing it does not, since
    [app.main] imports none of the authentication modules); and with both
    set, so that every import succeeds, the start-up hook still raises when
    the node is connected and does not report its chain id.  Nor is every
    later failure a typed result: a login on whose password the library
    raises ends with the library's exception, which is neither the 401 nor
    the 409 of the routes. *)
Lemma other_fatal_and_untyped_failures :
  (getenv (load_dotenv {[ "JWT_SECRET_KEY" := "s3cr3t" ]} ∅) "JWT_SECRET_KEY" = Some "s3cr3t"
   ∧ import_module app_main {[ "JWT_SECRET_KEY" := "s3cr3t" ]} ∅
     = Raises (ValueError "INFURA_PROJECT_ID not found in .env file. Please create one.")
   ∧ getenv (load_dotenv {[ "INFURA_PROJECT_ID" := "abc" ]} ∅) "JWT_SECRET_KEY" = None
   ∧ import_module app_main {[ "INFURA_PROJECT_ID" := "abc" ]} ∅ = Returns tt)
  ∧ ((∀ m, import_module m Faults.full_environ ∅ = Returns tt)
     ∧ (Endpoints.startup_event Faults.no_chain_id).1
       = Raises (LibraryError "ConnectionError"))
  ∧ ((AuthRoutes.login Strict.library Sample.key
        (UserLogin.new "a@x.com" Faults.nul_password) Sample.now Faults.one_user).1
     = Raises (LibraryError "NullPasswordError")
     ∧ LibraryError "NullPasswordError" ≠ AuthRoutes.incorrect_email_or_password
     ∧ LibraryError "NullPasswordError" ≠ AuthRoutes.email_already_registered).
Proof.
  split; [repeat split; vm_compute; reflexivity|].
  split.
  - split; [intros m; destruct m; vm_compute; reflexivity|].
    vm_compute. reflexivity.
  - split; [vm_compute; reflexivity|]. split; intros [=].
Qed.

Lemma startup_event_raises web3 :
  (∃ e, (Endpoints.startup_event web3).1 = Raises e)
  ↔ (∃ cls msg, is_connected web3 = Fails cls msg)
    ∨ (is_connected web3 = Answers true ∧ ∃ cls msg, eth_chain_id web3 = Fails cls msg).
Proof.
  unfold Endpoints.startup_event.
  destruct (is_connected web3) as [[]|cls msg];
    [destruct (eth_chain_id web3) as [n|cls msg]| |]; simpl.
  - split; [intros [e [=]]|].
    intros [(? & ? & [=])|[_ (? & ? & [=])]].
  - split; [intros _; right; eauto|intros _; eauto].
  - split; [intros [e [=]]|].
    intros [(? & ? & [=])|[[=] _]].
  - split; [intros _; left; eauto|intros _; eauto].
Qed.

Lemma register_raises lib uc rnd w e :
  (AuthRoutes.register lib uc rnd w).1 = Raises e ->
  (e = AuthRoutes.email_already_registered
   ∧ is_Some (fake_users_db w !! UserCreate.email uc))
  ∨ (∃ cls, e = LibraryError cls
            ∧ fake_users_db w !! UserCreate.email uc = None
            ∧ pwd_context_hash lib rnd (UserCreate.password uc) = Throws cls).
Proof.
  rewrite register_unfold.
  destruct (fake_users_db w !! UserCreate.email uc) as [row|]; simpl;
    [intros [= <-]; left; by eauto|].
  destruct (pwd_context_hash lib rnd (UserCreate.password uc)) as [h|cls] eqn:Hh;
    simpl; intros [= <-].
  right. by exists cls.
Qed.

Lemma login_raises lib key ul now w e :
  (AuthRoutes.login lib key ul now w).1 = Raises e ->
  (e = AuthRoutes.incorrect_email_or_password
   ∧ (fake_users_db w !! UserLogin.email ul = None
      ∨ ∃ row, fake_users_db w !! UserLogin.email ul = Some row
               ∧ pwd_context_verify lib (UserLogin.password ul)
                   (UserRow.hashed_password row) = Value false))
  ∨ (∃ row cls, fake_users_db w !! UserLogin.email ul = Some row
                ∧ pwd_context_verify lib (UserLogin.password ul)
                    (UserRow.hashed_password row) = Throws cls
                ∧ e = LibraryError cls)
  ∨ (∃ row, fake_users_db w !! UserLogin.email ul = Some row
            ∧ pwd_context_verify lib (UserLogin.password ul)
                (UserRow.hashed_password row) = Value true
            ∧ ((e = OverflowError
                ∧ Datetime.in_range (now + Datetime.minutes 30) = false)
               ∨ ∃ cls, e = LibraryError cls
                        ∧ (jwt_encode lib
                             (<["exp" := PyDatetime (now + Datetime.minutes 30)]>
                                {[ "sub" := PyStr (UserRow.email row) ]})
                             key "HS256").1 = Throws cls)).
Proof.
  rewrite login_unfold.
  destruct (fake_users_db w !! UserLogin.email ul) as [row|] eqn:Hrow; simpl;
    [|intros [= <-]; left; by eauto].
  destruct (pwd_context_verify lib _ _) as [[]|cls] eqn:Hv; simpl.
  - rewrite create_user_access_token_unfold. simpl. unfold Datetime.add.
    destruct (Datetime.in_range (now + Datetime.minutes 30)) eqn:Hrange; simpl.
    + destruct (jwt_encode lib _ key Security.ALGORITHM) as [[t|cls] d'] eqn:Henc;
        simpl; intros [= <-].
      right. right. exists row. split; [done|]. split; [done|].
      right. exists cls. split; [done|].
      unfold Security.ALGORITHM in Henc. by rewrite Henc.
    + intros [= <-]. right. right. exists row. split; [done|]. split; [done|].
      by left.
  - intros [= <-]. left. split; [done|]. right. by exists row.
  - intros [= <-]. right. left. by exists row, cls.
Qed.

(** C8, amended.  Three failures stop start-up.  Importing
    [app.core.security], and with it [app.services.auth_service] and
    [app.api.v1.auth_routes], raises [ValueError] exactly when
    [JWT_SECRET_KEY] is absent or empty; importing [app.main] raises
    [ValueError] exactly when [INFURA_PROJECT_ID] is absent or empty; and the
    start-up hook raises exactly when [web3.is_connected()] raises or the
    node is connected and reading its chain id raises.  After start-up the
    routes answer with a typed result the failures their own code detects:
    register raises the 409 error, and only for an email that is already a
    key; login raises the 401 error, and only for an unknown email or a
    password on which [pwd_context.verify] returns [False].  Every other
    failure of theirs is an exception raised inside [pwd_context.hash],
    [pwd_context.verify] or [jwt.encode], or the [OverflowError] of an expiry
    beyond the calendar, and it reaches the caller as it was raised. *)
Theorem startup_and_request_failures :
  (∀ environ dotenv m,
     import_module m environ dotenv =
     match m with
     | app_main =>
         if str_truthy (getenv (load_dotenv environ dotenv) "INFURA_PROJECT_ID")
         then Returns tt
         else Raises (ValueError "INFURA_PROJECT_ID not found in .env file. Please create one.")
     | app_models_user_models => Returns tt
     | app_core_security | app_services_auth_service | app_api_v1_auth_routes =>
         if str_truthy (getenv (load_dotenv environ dotenv) "JWT_SECRET_KEY")
         then Returns tt
         else Raises (ValueError "JWT_SECRET_KEY not found in .env file. Please generate one.")
     end)
  ∧ (∀ web3,
       (∃ e, (Endpoints.startup_event web3).1 = Raises e)
       ↔ (∃ cls msg, is_connected web3 = Fails cls msg)
         ∨ (is_connected web3 = Answers true
            ∧ ∃ cls msg, eth_chain_id web3 = Fails cls msg))
  ∧ (∀ lib uc rnd w e,
       (AuthRoutes.register lib uc rnd w).1 = Raises e ->
       (e = AuthRoutes.email_already_registered
        ∧ is_Some (fake_users_db w !! UserCreate.email uc))
       ∨ (∃ cls, e = LibraryError cls
                 ∧ fake_users_db w !! UserCreate.email uc = None
                 ∧ pwd_context_hash lib rnd (UserCreate.password uc) = Throws cls))
  ∧ (∀ lib key ul now w e,
       (AuthRoutes.login lib key ul now w).1 = Raises e ->
       (e = AuthRoutes.incorrect_email_or_password
        ∧ (fake_users_db w !! UserLogin.email ul = None
           ∨ ∃ row, fake_users_db w !! UserLogin.email ul = Some row
                    ∧ pwd_context_verify lib (UserLogin.password ul)
                        (UserRow.hashed_password row) = Value false))
       ∨ (∃ row cls, fake_users_db w !! UserLogin.email ul = Some row
                     ∧ pwd_context_verify lib (UserLogin.password ul)
                         (UserRow.hashed_password row) = Throws cls
                     ∧ e = LibraryError cls)
       ∨ (∃ row, fake_users_db w !! UserLogin.email ul = Some row
                 ∧ pwd_context_verify lib (UserLogin.password ul)
                     (UserRow.hashed_password row) = Value true
                 ∧ ((e = OverflowError
                     ∧ Datetime.in_range (now + Datetime.minutes 30) = false)
                    ∨ ∃ cls, e = LibraryError cls
                             ∧ (jwt_encode lib
                                  (<["exp" := PyDatetime (now + Datetime.minutes 30)]>
                                     {[ "sub" := PyStr (UserRow.email row) ]})
                                  key "HS256").1 = Throws cls))).
Proof.
  split; [|split; [|split]].
  - intros environ dotenv m.
    destruct m; simpl; try done;
      unfold import_auth_routes, import_auth_service, import_security, import_user_models,
        and_then, forget, Security.module_body, Main.module_body;
      match goal with |- context [str_truthy ?x] => destruct (str_truthy x) end; done.
  - apply startup_event_raises.
  - apply register_raises.
  - apply login_raises.
Qed.

(** ** The flows on concrete inputs *)

(** Two registrations, a repeated one, and a login, with the transparent
    library: ids 1 and 2 are handed out, the duplicate is refused with 409 and
    consumes no id, and the login yields a bearer token for the subject. *)
Example end_to_end :
  (serve Plain.library Sample.key
     [POST_register Sample.alice [];
      POST_register Sample.alice [];
      POST_register Sample.bob [];
      POST_login (UserLogin.new "a@x.com" "pw1") Sample.now]
     AuthService.module_body).1
  = [Registered (UserResponse.new 1 "a@x.com");
     Failed AuthRoutes.email_already_registered;
     Registered (UserResponse.new 2 "b@x.com");
     LoggedIn (Token.new "HS256.a@x.com.1767227400" "bearer")].
Proof. by vm_compute. Qed.

Example one_user_directory :
  fake_users_db Sample.one_user = {[ "a@x.com" := Sample.alice_row ]}
  ∧ user_id_counter Sample.one_user = 2.
Proof. split; by vm_compute. Qed.

(** A lifetime of one second is honoured; only zero falls back to the default. *)
Example one_second_lifetime :
  (Security.create_access_token Plain.library Sample.key 1%positive
     (Some Datetime.US_PER_SECOND) Sample.now Sample.one_dict).1
  = Returns "HS256.a@x.com.1767225601".
Proof. by vm_compute. Qed.

(** The caller's payload after a call whose encoder rewrites ["exp"]. *)
Example payload_untouched :
  heap (Security.create_access_token Plain.library Sample.key 1%positive None
          Sample.now Sample.one_dict).2 !! 1%positive = Some Sample.payload
  ∧ heap (Security.create_access_token Plain.library Sample.key 1%positive None
            Sample.now Sample.one_dict).2 !! 2%positive
    = Some (<["exp" := PyInt 1767227400]> Sample.payload).
Proof. split; by vm_compute. Qed.

(** * Further properties of the flows *)

(** ** Records, once stored, stay as they are *)

Lemma handle_keeps_rows lib key r w e row :
  fake_users_db w !! e = Some row ->
  fake_users_db (handle lib key r w).2 !! e = Some row.
Proof.
  intros Hrow.
  destruct (handle_cases lib key r w) as [(uc & rnd & h & -> & Hfree & Hh)|[[Hdb _] _]].
  - rewrite Hh. simpl. rewrite lookup_insert_ne; [done|]. intros <-. congruence.
  - by rewrite Hdb.
Qed.

Lemma serve_keeps_rows lib key rs : ∀ w e row,
  fake_users_db w !! e = Some row ->
  fake_users_db (serve lib key rs w).2 !! e = Some row.
Proof.
  induction rs as [|r rs IH]; intros w e row Hrow; [done|].
  rewrite serve_cons. simpl. apply IH. by apply handle_keeps_rows.
Qed.

Lemma serve_counter_monotone lib key rs : ∀ w,
  user_id_counter w ≤ user_id_counter (serve lib key rs w).2.
Proof.
  induction rs as [|r rs IH]; intros w; [done|].
  rewrite serve_cons. simpl.
  etrans; [|apply IH].
  destruct (handle_cases lib key r w) as [(uc & rnd & h & -> & Hfree & Hh)|[[_ Hc] _]].
  - rewrite Hh. simpl. lia.
  - by rewrite Hc.
Qed.

(** No request deletes or rewrites a record, and the id counter never goes
    back: a record found under an email in some world is found, unchanged
    (same id, same hash), after any sequence of register and login requests
    served from that world, and the counter is then at least what it was. *)
Theorem registered_rows_persist lib key (rs : list request) (w : world)
    (e : string) (row : UserRow.t) :
  fake_users_db w !! e = Some row ->
  fake_users_db (serve lib key rs w).2 !! e = Some row
  ∧ user_id_counter w ≤ user_id_counter (serve lib key rs w).2.
Proof.
  intros Hrow. split.
  - by apply serve_keeps_rows.
  - apply serve_counter_monotone.
Qed.

Lemma registered_rows_persist_witness :
  fake_users_db (serve Plain.library Sample.key Cases.traffic Sample.one_user).2 !! "a@x.com"
  = Some Sample.alice_row
  ∧ user_id_counter Sample.one_user
    ≤ user_id_counter (serve Plain.library Sample.key Cases.traffic Sample.one_user).2.
Proof.
  apply (registered_rows_persist Plain.library Sample.key Cases.traffic Sample.one_user
           "a@x.com" Sample.alice_row).
  vm_compute. reflexivity.
Defined.

(** ** The directory holds the registered emails and nothing else *)

Lemma serve_keys lib key rs : ∀ w e,
  is_Some (fake_users_db (serve lib key rs w).2 !! e)
  ↔ is_Some (fake_users_db w !! e)
    ∨ ∃ u, Registered u ∈ (serve lib key rs w).1 ∧ UserResponse.email u = e.
Proof.
  induction rs as [|r rs IH]; intros w e.
  - simpl. split; [by left|]. intros [H|(u & Hu & _)]; [done|].
    by apply elem_of_nil in Hu.
  - rewrite serve_cons. simpl. rewrite IH.
    destruct (handle_cases lib key r w) as [(uc & rnd & h & -> & Hfree & Hh)|[[Hdb _] Hnot]].
    + rewrite Hh. simpl. rewrite lookup_insert. split.
      * intros [Hin|(u & Hu & He)].
        -- case_decide as Hk.
           ++ right. eexists. split; [apply elem_of_cons; by left|]. done.
           ++ by left.
        -- right. exists u. split; [apply elem_of_cons; by right|done].
      * intros [Hin|(u & Hu & He)].
        -- left. case_decide; [by eauto|done].
        -- apply elem_of_cons in Hu as [[= ->]|Hu].
           ++ left. simpl in He. rewrite decide_True by done. by eauto.
           ++ right. by exists u.
    + rewrite Hdb. split.
      * intros [Hin|(u & Hu & He)]; [by left|].
        right. exists u. split; [apply elem_of_cons; by right|done].
      * intros [Hin|(u & Hu & He)]; [by left|].
        apply elem_of_cons in Hu as [Hu|Hu]; [by destruct (Hnot u)|].
        right. by exists u.
Qed.

(** After any sequence of requests from the initial state, an email is a key
    of the directory exactly when some register request of the sequence was
    answered with success for that email: accounts come from successful
    registrations only, and every successful registration leaves one. *)
Theorem directory_keys_are_registered_emails lib key (rs : list request) (e : string) :
  is_Some (fake_users_db (serve lib key rs AuthService.module_body).2 !! e)
  ↔ ∃ u, Registered u ∈ (serve lib key rs AuthService.module_body).1
         ∧ UserResponse.email u = e.
Proof.
  rewrite serve_keys. simpl. rewrite lookup_empty. split.
  - intros [[? [=]]|H]; done.
  - by right.
Qed.

(** ** Registration followed by later requests *)

Lemma register_returns lib uc rnd w u :
  (AuthRoutes.register lib uc rnd w).1 = Returns u ->
  ∃ h, pwd_context_hash lib rnd (UserCreate.password uc) = Value h
       ∧ fake_users_db w !! UserCreate.email uc = None
       ∧ u = UserResponse.new (user_id_counter w) (UserCreate.email uc)
       ∧ (AuthRoutes.register lib uc rnd w).2 = inserted uc h w.
Proof.
  rewrite register_unfold.
  destruct (fake_users_db w !! UserCreate.email uc); [by intros [=]|].
  destruct (pwd_context_hash lib rnd (UserCreate.password uc)) as [h|]; [|by intros [=]].
  simpl. intros [= <-]. by exists h.
Qed.

(** Once a registration has succeeded, every later registration for the same
    email, with whatever password and after whatever requests in between, is
    refused with 409 and changes nothing: the first password stays. *)
Theorem duplicate_registration_refused_forever lib key
    (user_create again : UserCreate.t) (rnd rnd' : entropy) (rs : list request)
    (w : world) (u : UserResponse.t) :
  (AuthRoutes.register lib user_create rnd w).1 = Returns u ->
  UserCreate.email again = UserCreate.email user_create ->
  let w' := (serve lib key rs (AuthRoutes.register lib user_create rnd w).2).2 in
  AuthRoutes.register lib again rnd' w' = (Raises AuthRoutes.email_already_registered, w').
Proof.
  intros Hreg Hemail. simpl.
  apply register_returns in Hreg as (h & _ & _ & _ & ->).
  rewrite register_unfold, Hemail.
  erewrite serve_keeps_rows; [done|].
  simpl. by rewrite lookup_insert_eq.
Qed.

Lemma duplicate_registration_refused_forever_witness :
  AuthRoutes.register Plain.library (UserCreate.new "a@x.com" "other") []
    (serve Plain.library Sample.key Cases.traffic
       (AuthRoutes.register Plain.library Sample.alice [] AuthService.module_body).2).2
  = (Raises AuthRoutes.email_already_registered,
     (serve Plain.library Sample.key Cases.traffic
        (AuthRoutes.register Plain.library Sample.alice [] AuthService.module_body).2).2).
Proof.
  apply (duplicate_registration_refused_forever Plain.library Sample.key
           Sample.alice (UserCreate.new "a@x.com" "other") [] [] Cases.traffic
           AuthService.module_body (UserResponse.new 1 "a@x.com")).
  - vm_compute. reflexivity.
  - reflexivity.
Defined.

(** Registration and login meet in the stored hash.  After a successful
    registration and any further requests, authenticating with the same email
    checks the offered password against the very hash that registration
    stored: the call returns the identity that registration returned when the
    library accepts the password, [None] when it rejects it, and lets the
    library's exception through otherwise; the world is not changed. *)
Theorem authenticate_after_register lib key (user_create : UserCreate.t) (rnd : entropy)
    (rs : list request) (w : world) (u : UserResponse.t) (offered : string) :
  (AuthRoutes.register lib user_create rnd w).1 = Returns u ->
  let w' := (serve lib key rs (AuthRoutes.register lib user_create rnd w).2).2 in
  ∃ h, pwd_context_hash lib rnd (UserCreate.password user_create) = Value h
       ∧ AuthService.authenticate_user lib
           (UserLogin.new (UserCreate.email user_create) offered) w'
         = (match pwd_context_verify lib offered h with
            | Value true => Returns (Some u)
            | Value false => Returns None
            | Throws cls => Raises (LibraryError cls)
            end, w').
Proof.
  intros Hreg. simpl.
  apply register_returns in Hreg as (h & Hh & _ & -> & ->).
  exists h. split; [done|].
  rewrite authenticate_user_unfold. simpl.
  erewrite serve_keeps_rows; [|simpl; by rewrite lookup_insert_eq].
  simpl. by destruct (pwd_context_verify lib offered h) as [[]|].
Qed.

Lemma authenticate_after_register_witness :
  ∃ h, Plain.hash [] "pw1" = Value h
       ∧ AuthService.authenticate_user Plain.library (UserLogin.new "a@x.com" "pw1")
           (serve Plain.library Sample.key Cases.traffic
              (AuthRoutes.register Plain.library Sample.alice [] AuthService.module_body).2).2
         = (match Plain.verify "pw1" h with
            | Value true => Returns (Some (UserResponse.new 1 "a@x.com"))
            | Value false => Returns None
            | Throws cls => Raises (LibraryError cls)
            end,
            (serve Plain.library Sample.key Cases.traffic
               (AuthRoutes.register Plain.library Sample.alice [] AuthService.module_body).2).2).
Proof.
  apply (authenticate_after_register Plain.library Sample.key Sample.alice []
           Cases.traffic AuthService.module_body (UserResponse.new 1 "a@x.com") "pw1").
  vm_compute. reflexivity.
Defined.

(** ** What a login hands out *)

(** A token is issued only after the password has been verified: whenever the
    login route returns, the email is a key of the directory, the library has
    accepted the offered password against the hash stored under that email,
    and the token is a bearer token. *)
Theorem login_only_after_verification lib key (user_login : UserLogin.t)
    (now : Datetime.datetime) (w : world) (t : Token.t) :
  (AuthRoutes.login lib key user_login now w).1 = Returns t ->
  Token.token_type t = "bearer"
  ∧ ∃ row, fake_users_db w !! UserLogin.email user_login = Some row
           ∧ pwd_context_verify lib (UserLogin.password user_login)
               (UserRow.hashed_password row) = Value true.
Proof.
  rewrite login_unfold.
  destruct (fake_users_db w !! UserLogin.email user_login) as [row|]; [|by intros [=]].
  destruct (pwd_context_verify lib _ _) as [[]|] eqn:Hv; try by intros [=].
  rewrite create_user_access_token_unfold. simpl.
  destruct (Datetime.add now (Datetime.minutes 30)); [|by intros [=]].
  simpl. destruct (jwt_encode lib _ key Security.ALGORITHM) as [[tok|cls] d'];
    simpl; [|by intros [=]].
  intros [= <-]. split; [done|]. by exists row.
Qed.

Lemma login_only_after_verification_witness :
  Token.token_type (Token.new "HS256.a@x.com.1767227400" "bearer") = "bearer"
  ∧ ∃ row, fake_users_db Sample.one_user !! "a@x.com" = Some row
           ∧ Plain.verify "pw1" (UserRow.hashed_password row) = Value true.
Proof.
  apply (login_only_after_verification Plain.library Sample.key
           (UserLogin.new "a@x.com" "pw1") Sample.now Sample.one_user
           (Token.new "HS256.a@x.com.1767227400" "bearer")).
  vm_compute. reflexivity.
Defined.

(** In a reachable world, a login whose password the library accepts, at a
    clock from which thirty minutes can be added, asks the encoder for a token
    over exactly two claims, the email that was submitted as ["sub"] and the
    clock plus thirty minutes as ["exp"], signed with the module's key and
    HS256; the route returns that token as a bearer token, or lets the
    encoder's exception through, and leaves directory and counter alone. *)
Theorem login_token_claims lib key (user_login : UserLogin.t) (now : Datetime.datetime)
    (w : world) (row : UserRow.t) :
  reachable lib key w ->
  fake_users_db w !! UserLogin.email user_login = Some row ->
  pwd_context_verify lib (UserLogin.password user_login) (UserRow.hashed_password row)
    = Value true ->
  Datetime.in_range (now + Datetime.minutes 30) = true ->
  (AuthRoutes.login lib key user_login now w).1
  = match (jwt_encode lib
             (<["exp" := PyDatetime (now + Datetime.minutes 30)]>
                {[ "sub" := PyStr (UserLogin.email user_login) ]})
             key "HS256").1 with
    | Value access_token => Returns (Token.new access_token "bearer")
    | Throws cls => Raises (LibraryError cls)
    end
  ∧ same_directory w (AuthRoutes.login lib key user_login now w).2.
Proof.
  intros Hreach Hrow Hverify Hrange.
  split; [|apply login_same_directory].
  apply reachable_directory_ok in Hreach as (Hkey & _ & _).
  destruct (Hkey _ _ Hrow) as [Hemail _].
  rewrite login_unfold, Hrow, Hverify, create_user_access_token_unfold. simpl.
  unfold Datetime.add. rewrite Hrange, Hemail. done.
Qed.

Lemma login_token_claims_witness :
  (AuthRoutes.login Plain.library Sample.key (UserLogin.new "a@x.com" "pw1")
     Sample.now Sample.one_user).1
  = match (Plain.encode
             (<["exp" := PyDatetime (Sample.now + Datetime.minutes 30)]>
                {[ "sub" := PyStr "a@x.com" ]})
             Sample.key "HS256").1 with
    | Value access_token => Returns (Token.new access_token "bearer")
    | Throws cls => Raises (LibraryError cls)
    end
  ∧ same_directory Sample.one_user
      (AuthRoutes.login Plain.library Sample.key (UserLogin.new "a@x.com" "pw1")
         Sample.now Sample.one_user).2.
Proof.
  apply (login_token_claims Plain.library Sample.key (UserLogin.new "a@x.com" "pw1")
           Sample.now Sample.one_user Sample.alice_row).
  - exists [POST_register Sample.alice []]. vm_compute. reflexivity.
  - vm_compute. reflexivity.
  - vm_compute. reflexivity.
  - vm_compute. reflexivity.
Defined.

(** ** The expiry at the edge of the calendar *)

Lemma in_range_false t :
  Datetime.in_range t = false
  ↔ t < Datetime.US_PER_DAY ∨ (Datetime.MAXORDINAL + 1) * Datetime.US_PER_DAY ≤ t.
Proof.
  unfold Datetime.in_range. rewrite andb_false_iff, Z.leb_gt, Z.ltb_ge. done.
Qed.

(** Token creation on an existing payload fails with [OverflowError] exactly
    when the clock plus the lifetime falls before year 1 or after year 9999.
    In that case the encoder's result is not used and the copy that was made
    still holds the caller's items without ["exp"]; in every other case the
    only failure left is the encoder's own. *)
Theorem create_access_token_overflow lib key (data : loc)
    (expires_delta : option Datetime.timedelta) (now : Datetime.datetime)
    (w : world) (d : gmap string pyvalue) :
  heap w !! data = Some d ->
  let r := Security.create_access_token lib key data expires_delta now w in
  (r.1 = Raises OverflowError
     ↔ now + lifetime expires_delta < Datetime.US_PER_DAY
       ∨ (Datetime.MAXORDINAL + 1) * Datetime.US_PER_DAY ≤ now + lifetime expires_delta)
  ∧ (r.1 = Raises OverflowError -> heap r.2 !! copy_address w = Some d)
  ∧ (∀ e, r.1 = Raises e -> e = OverflowError ∨ ∃ cls, e = LibraryError cls).
Proof.
  intros Hd. simpl. rewrite create_access_token_unfold, Hd.
  rewrite <- in_range_false. unfold Datetime.add.
  destruct (Datetime.in_range (now + lifetime expires_delta)) eqn:Hrange; simpl.
  - destruct (jwt_encode lib _ key Security.ALGORITHM) as [[t|cls] d']; simpl.
    + split; [split; intros [=]|]. split; [intros [=]|]. intros e [=].
    + split; [split; intros [=]|]. split; [intros [=]|].
      intros e [= <-]. right. by exists cls.
  - split; [done|]. split; [intros _; by rewrite lookup_insert_eq|].
    intros e [= <-]. by left.
Qed.

Lemma create_access_token_overflow_witness :
  ((Security.create_access_token Plain.library Sample.key 1%positive None
      Cases.last_quarter_hour Sample.one_dict).1 = Raises OverflowError
     ↔ Cases.last_quarter_hour + lifetime None < Datetime.US_PER_DAY
       ∨ (Datetime.MAXORDINAL + 1) * Datetime.US_PER_DAY
         ≤ Cases.last_quarter_hour + lifetime None)
  ∧ ((Security.create_access_token Plain.library Sample.key 1%positive None
        Cases.last_quarter_hour Sample.one_dict).1 = Raises OverflowError ->
     heap (Security.create_access_token Plain.library Sample.key 1%positive None
             Cases.last_quarter_hour Sample.one_dict).2 !! copy_address Sample.one_dict
     = Some Sample.payload)
  ∧ (∀ e, (Security.create_access_token Plain.library Sample.key 1%positive None
             Cases.last_quarter_hour Sample.one_dict).1 = Raises e ->
          e = OverflowError ∨ ∃ cls, e = LibraryError cls).
Proof.
  apply (create_access_token_overflow Plain.library Sample.key 1%positive None
           Cases.last_quarter_hour Sample.one_dict Sample.payload).
  vm_compute. reflexivity.
Defined.

Example overflow_in_the_last_quarter_hour :
  (Security.create_access_token Plain.library Sample.key 1%positive None
     Cases.last_quarter_hour Sample.one_dict).1 = Raises OverflowError.
Proof. by vm_compute. Qed.

(** ** Logins and registrations do not interfere *)

Lemma register_same_directory lib uc rnd w1 w2 :
  same_directory w1 w2 ->
  (AuthRoutes.register lib uc rnd w2).1 = (AuthRoutes.register lib uc rnd w1).1
  ∧ same_directory (AuthRoutes.register lib uc rnd w1).2 (AuthRoutes.register lib uc rnd w2).2.
Proof.
  intros [Hdb Hc]. rewrite !register_unfold, Hdb.
  destruct (fake_users_db w1 !! UserCreate.email uc); [by split|].
  destruct (pwd_context_hash lib rnd (UserCreate.password uc)); [|by split].
  simpl. rewrite Hc. split; [done|]. split; simpl; congruence.
Qed.

Lemma serve_without_logins lib key rs : ∀ w1 w2,
  same_directory w1 w2 ->
  registration_responses rs (serve lib key rs w2).1 = (serve lib key (registrations rs) w1).1
  ∧ same_directory (serve lib key (registrations rs) w1).2 (serve lib key rs w2).2.
Proof.
  induction rs as [|[uc rnd|ul now] rs IH]; intros w1 w2 Hsame.
  - by simpl.
  - cbn [registrations]. rewrite !serve_cons. cbn [registration_responses fst snd].
    destruct (register_same_directory lib uc rnd w1 w2 Hsame) as [Hres Hsame'].
    assert (Hh : (handle lib key (POST_register uc rnd) w2).1
                 = (handle lib key (POST_register uc rnd) w1).1
                 ∧ same_directory (handle lib key (POST_register uc rnd) w1).2
                     (handle lib key (POST_register uc rnd) w2).2).
    { simpl.
      destruct (AuthRoutes.register lib uc rnd w1) as [[u1|e1] w1'];
        destruct (AuthRoutes.register lib uc rnd w2) as [[u2|e2] w2'];
        simpl in *; try discriminate; split; congruence. }
    destruct Hh as [Hresp Hnext].
    destruct (IH _ _ Hnext) as [Hlog Hfinal].
    split; [by rewrite Hresp, Hlog|done].
  - cbn [registrations]. rewrite serve_cons. cbn [registration_responses fst snd].
    apply IH. eapply same_directory_trans; [exact Hsame|].
    simpl.
    pose proof (login_same_directory lib key ul now w2) as Hl.
    by destruct (AuthRoutes.login lib key ul now w2) as [[t|e] w'].
Qed.

(** Logins have no influence on registration.  Striking every login out of a
    sequence of requests leaves each register request with the answer it had
    (the same id, the same refusal) and leads to the same directory and the
    same counter. *)
Theorem logins_do_not_affect_registration lib key (rs : list request) (w : world) :
  registration_responses rs (serve lib key rs w).1 = (serve lib key (registrations rs) w).1
  ∧ same_directory (serve lib key (registrations rs) w).2 (serve lib key rs w).2.
Proof.
  destruct (serve_without_logins lib key rs w w (same_directory_refl w)) as [Hlog Hdir].
  split.
  - exact Hlog.
  - exact Hdir.
Qed.

(** ** The status endpoint and the start-up hook *)

(** The status endpoint survives a failing block-number lookup.  Whenever
    [is_connected] answers, [get_status] returns a report with exactly the
    four keys, ["api_status"] always ["online"], the connection flag as
    answered and the application version; ["current_block"] is [None] exactly
    when the node is not connected, the string ["N/A"] exactly when it is
    connected and the lookup failed (the one case in which a line is printed),
    and the number the node gave otherwise. *)
Theorem get_status_report (app : Main.t) (web3 : Web3) (connected : bool) :
  is_connected web3 = Answers connected ->
  ∃ report,
    (Endpoints.get_status app web3).1 = Returns report
    ∧ dom report
      = ({[ "api_status"; "blockchain_connected"; "current_block"; "version" ]} : gset string)
    ∧ report !! "api_status" = Some (PyStr "online")
    ∧ report !! "blockchain_connected" = Some (PyBool connected)
    ∧ report !! "version" = Some (PyStr (Main.version app))
    ∧ (report !! "current_block" = Some PyNone ↔ connected = false)
    ∧ (report !! "current_block" = Some (PyStr "N/A")
         ↔ connected = true ∧ ∃ cls msg, eth_block_number web3 = Fails cls msg)
    ∧ (∀ n, report !! "current_block" = Some (PyInt n)
         ↔ connected = true ∧ eth_block_number web3 = Answers n)
    ∧ ((Endpoints.get_status app web3).2 ≠ []
         ↔ connected = true ∧ ∃ cls msg, eth_block_number web3 = Fails cls msg).
Proof.
  intros Hconn. unfold Endpoints.get_status. rewrite Hconn.
  assert (Hlookups : ∀ (c b v : pyvalue) (report : gmap string pyvalue),
    report = <["api_status" := PyStr "online"]>
               (<["blockchain_connected" := b]>
                  (<["current_block" := c]> {[ "version" := v ]})) ->
    dom report
      = ({[ "api_status"; "blockchain_connected"; "current_block"; "version" ]} : gset string)
    ∧ report !! "api_status" = Some (PyStr "online")
    ∧ report !! "blockchain_connected" = Some b
    ∧ report !! "version" = Some v
    ∧ report !! "current_block" = Some c).
  { intros c b v report ->.
    split; [rewrite !dom_insert_L, dom_singleton_L; set_solver|].
    rewrite lookup_insert_eq.
    repeat (rewrite lookup_insert_ne by done; rewrite ?lookup_insert_eq).
    by rewrite lookup_singleton_eq. }
  destruct connected; [destruct (eth_block_number web3) as [n|cls msg] eqn:Hblock|];
    simpl; eexists; (split; [reflexivity|]);
    (edestruct Hlookups as (Hdom & Hapi & Hflag & Hver & Hblk); [reflexivity|]);
    rewrite Hdom, Hapi, Hflag, Hver, Hblk;
    (do 4 (split; [done|])).
  - split; [split; intros [=]|].
    split; [split; [intros [=]|intros [_ (? & ? & [=])]]|].
    split; [intros n0; split; [by intros [= ->]|by intros [_ [= ->]]]|].
    split; [done|intros [_ (? & ? & [=])]].
  - split; [split; intros [=]|].
    split; [split; [intros _; split; [done|eauto]|done]|].
    split; [intros n; split; [intros [=]|intros [_ [=]]]|].
    split; [intros _; split; [done|eauto]|done].
  - split; [done|].
    split; [split; [intros [=]|intros [[=] _]]|].
    split; [intros n; split; [intros [=]|intros [[=] _]]|].
    split; [done|intros [[=] _]].
Qed.

Lemma get_status_report_witness :
  ∃ report,
    (Endpoints.get_status Cases.app Cases.flaky_node).1 = Returns report
    ∧ dom report
      = ({[ "api_status"; "blockchain_connected"; "current_block"; "version" ]} : gset string)
    ∧ report !! "api_status" = Some (PyStr "online")
    ∧ report !! "blockchain_connected" = Some (PyBool true)
    ∧ report !! "version" = Some (PyStr (Main.version Cases.app))
    ∧ (report !! "current_block" = Some PyNone ↔ true = false)
    ∧ (report !! "current_block" = Some (PyStr "N/A")
         ↔ true = true ∧ ∃ cls msg, eth_block_number Cases.flaky_node = Fails cls msg)
    ∧ (∀ n, report !! "current_block" = Some (PyInt n)
         ↔ true = true ∧ eth_block_number Cases.flaky_node = Answers n)
    ∧ ((Endpoints.get_status Cases.app Cases.flaky_node).2 ≠ []
         ↔ true = true ∧ ∃ cls msg, eth_block_number Cases.flaky_node = Fails cls msg).
Proof.
  apply (get_status_report Cases.app Cases.flaky_node true).
  reflexivity.
Defined.

Example status_with_flaky_node :
  Endpoints.get_status Cases.app Cases.flaky_node
  = (Returns (<["api_status" := PyStr "online"]>
               (<["blockchain_connected" := PyBool true]>
                (<["current_block" := PyStr "N/A"]> {[ "version" := PyStr "0.1.0" ]}))),
     ["Error fetching block number: connection reset"]).
Proof. reflexivity. Qed.

(** An unreachable node does not stop start-up.  Whenever [is_connected]
    answers, the hook prints the banner first; it raises exactly when the
    node is connected and the chain-id lookup fails, which nothing catches;
    and when it returns it has printed exactly one more line, the failure
    notice if the node is not connected and the chain id otherwise. *)
Theorem startup_event_outcome (web3 : Web3) (connected : bool) :
  is_connected web3 = Answers connected ->
  let r := Endpoints.startup_event web3 in
  head r.2 = Some "Molecule Ledger Backend starting up..."
  ∧ ((∃ e, r.1 = Raises e)
       ↔ connected = true ∧ ∃ cls msg, eth_chain_id web3 = Fails cls msg)
  ∧ (r.1 = Returns tt -> length r.2 = 2%nat)
  ∧ (connected = false ->
       r.1 = Returns tt
       ∧ r.2 !! 1%nat
         = Some "Failed to connect to Ethereum network! Check INFURA_PROJECT_ID or network.")
  ∧ (∀ n, connected = true -> eth_chain_id web3 = Answers n ->
       r.1 = Returns tt
       ∧ r.2 !! 1%nat
         = Some ("Connected to Ethereum network: Chain ID " +:+ pretty n
                 +:+ " (Sepolia Testnet)")).
Proof.
  intros Hconn. simpl. unfold Endpoints.startup_event. rewrite Hconn.
  destruct connected; [destruct (eth_chain_id web3) as [n|cls msg] eqn:Hchain|]; simpl.
  - split; [done|].
    split; [split; [intros [e [=]]|intros [_ (? & ? & [=])]]|].
    split; [done|]. split; [intros [=]|].
    by intros n0 _ [= ->].
  - split; [done|].
    split; [split; [intros _; split; [done|eauto]|intros _; eauto]|].
    split; [intros [=]|]. split; [intros [=]|].
    intros n _ [=].
  - split; [done|].
    split; [split; [intros [e [=]]|intros [[=] _]]|].
    split; [done|]. split; [done|].
    intros n [=].
Qed.

Lemma startup_event_outcome_witness :
  head (Endpoints.startup_event Cases.unreachable_node).2
    = Some "Molecule Ledger Backend starting up..."
  ∧ ((∃ e, (Endpoints.startup_event Cases.unreachable_node).1 = Raises e)
       ↔ false = true ∧ ∃ cls msg, eth_chain_id Cases.unreachable_node = Fails cls msg)
  ∧ ((Endpoints.startup_event Cases.unreachable_node).1 = Returns tt ->
       length (Endpoints.startup_event Cases.unreachable_node).2 = 2%nat)
  ∧ (false = false ->
       (Endpoints.startup_event Cases.unreachable_node).1 = Returns tt
       ∧ (Endpoints.startup_event Cases.unreachable_node).2 !! 1%nat
         = Some "Failed to connect to Ethereum network! Check INFURA_PROJECT_ID or network.")
  ∧ (∀ n, false = true -> eth_chain_id Cases.unreachable_node = Answers n ->
       (Endpoints.startup_event Cases.unreachable_node).1 = Returns tt
       ∧ (Endpoints.startup_event Cases.unreachable_node).2 !! 1%nat
         = Some ("Connected to Ethereum network: Chain ID " +:+ pretty n
                 +:+ " (Sepolia Testnet)")).
Proof.
  apply (startup_event_outcome Cases.unreachable_node false).
  reflexivity.
Defined.

Example startup_on_sepolia :
  Endpoints.startup_event Cases.flaky_node
  = (Returns tt,
     ["Molecule Ledger Backend starting up...";
      "Connected to Ethereum network: Chain ID 11155111 (Sepolia Testnet)"]).
Proof. by vm_compute. Qed.

(** ** The values the module bodies bind *)

Lemma str_truthy_Some (v : option string) :
  str_truthy v = true ↔ ∃ s, v = Some s ∧ s ≠ EmptyString.
Proof.
  destruct v as [s|]; simpl.
  - rewrite negb_true_iff, String.eqb_neq. split; [by eauto|]. by intros (s' & [= <-] & H).
  - split; [done|]. by intros (s' & [=] & _).
Qed.

Lemma getenv_load_dotenv environ dotenv name s :
  getenv (load_dotenv environ dotenv) name = Some s
  ↔ environ !! name = Some s ∨ (environ !! name = None ∧ dotenv !! name = Some s).
Proof. unfold getenv, load_dotenv. apply lookup_union_Some_raw. Qed.

(** When [app.core.security] has been imported, the signing key it holds is
    not the empty string, and it is the value of [JWT_SECRET_KEY] in the
    process environment if the variable is set there, the value in the [.env]
    file only if the process environment does not set it; in particular a
    variable set to the empty string in the process environment hides the
    file's entry.  The same holds for [INFURA_PROJECT_ID] in [app.main], whose
    node address is the fixed Sepolia prefix followed by that value. *)
Theorem module_body_values (environ dotenv : gmap string string) :
  (∀ k, Security.module_body environ dotenv = Returns k
        ↔ k ≠ EmptyString
          ∧ (environ !! "JWT_SECRET_KEY" = Some k
             ∨ (environ !! "JWT_SECRET_KEY" = None ∧ dotenv !! "JWT_SECRET_KEY" = Some k)))
  ∧ (∀ app, Main.module_body environ dotenv = Returns app
        ↔ ∃ project_id,
            project_id ≠ EmptyString
            ∧ (environ !! "INFURA_PROJECT_ID" = Some project_id
               ∨ (environ !! "INFURA_PROJECT_ID" = None
                  ∧ dotenv !! "INFURA_PROJECT_ID" = Some project_id))
            ∧ app = {| Main.INFURA_PROJECT_ID := project_id;
                       Main.INFURA_URL := "https://sepolia.infura.io/v3/" +:+ project_id;
                       Main.version := "0.1.0" |}).
Proof.
  split.
  - intros k. unfold Security.module_body.
    rewrite <- getenv_load_dotenv.
    destruct (str_truthy (getenv (load_dotenv environ dotenv) "JWT_SECRET_KEY")) eqn:Ht; simpl.
    + apply str_truthy_Some in Ht as (s & Hs & Hne). rewrite Hs. simpl. split.
      * by intros [= <-].
      * by intros [_ [= ->]].
    + split; [intros [=]|]. intros [Hne Hk].
      assert (str_truthy (getenv (load_dotenv environ dotenv) "JWT_SECRET_KEY") = true)
        by (apply str_truthy_Some; eauto).
      congruence.
  - intros app. unfold Main.module_body.
    destruct (str_truthy (getenv (load_dotenv environ dotenv) "INFURA_PROJECT_ID")) eqn:Ht;
      simpl.
    + apply str_truthy_Some in Ht as (s & Hs & Hne). rewrite Hs. simpl. split.
      * intros [= <-]. exists s. by rewrite <- getenv_load_dotenv.
      * intros (project_id & _ & Hid & ->).
        apply getenv_load_dotenv in Hid. by replace project_id with s by congruence.
    + split; [intros [=]|]. intros (project_id & Hne & Hid & _).
      apply getenv_load_dotenv in Hid.
      assert (str_truthy (getenv (load_dotenv environ dotenv) "INFURA_PROJECT_ID") = true)
        by (apply str_truthy_Some; eauto).
      congruence.
Qed.

(** An empty variable in the process environment hides the key of the file. *)
Example empty_variable_hides_dotenv :
  Security.module_body {[ "JWT_SECRET_KEY" := EmptyString ]} {[ "JWT_SECRET_KEY" := "s3cr3t" ]}
  = Raises (ValueError "JWT_SECRET_KEY not found in .env file. Please generate one.")
  ∧ Security.module_body ∅ {[ "JWT_SECRET_KEY" := "s3cr3t" ]} = Returns "s3cr3t".
Proof. split; by vm_compute. Qed.
